(** * Verification of [src/execution.py] (class [Execution])

    A shallow embedding of the enrollment allocator, the deletion
    enumeration, the warehouse construction and the interactive session
    loop of the person-recognition node, followed by the properties the
    specification states about them.

    Python integers are modelled by [Z], file names and paths by [string]
    (ASCII), Python lists by [list].  An uncaught Python exception is a
    [Raise] outcome.  The file system is a list of decoded files by path:
    paths are compared as strings, every file decodes to an image, the two
    dataset directories exist and hold files only.  The detector, cropper,
    normalizer, encoder and nearest-neighbour rule are total functions given
    as parameters. *)

From Stdlib Require Import ZArith List String Ascii Bool Arith Lia.
From Stdlib Require Import DecimalString.
From Stdlib Require DecimalPos.
From Equations Require Import Equations.
Import ListNotations.

Local Open Scope string_scope.
Local Open Scope Z_scope.
Local Open Scope list_scope.

(** ** Python builtins used by the program *)

Module Py.

(** [s.split(sep)] for a one-character separator: never empty. *)
Fixpoint split (sep : ascii) (s : string) : list string :=
  match s with
  | EmptyString => [EmptyString]
  | String c r =>
      if Ascii.eqb c sep then EmptyString :: split sep r
      else match split sep r with
           | [] => [String c EmptyString]
           | p :: ps => String c p :: ps
           end
  end.

(** [parts[0]] and [parts[-1]] on the (non-empty) result of [split]. *)
Definition first (parts : list string) : string := hd EmptyString parts.
Definition last (parts : list string) : string := List.last parts EmptyString.

(** [str(n)] for an integer. *)
Definition str (n : Z) : string := NilZero.string_of_int (Z.to_int n).

(** [s.zfill(width)]: zeros are inserted after a leading sign. *)
Definition zeros (n : nat) : string := string_of_list_ascii (repeat "0"%char n).

Definition zfill (width : nat) (s : string) : string :=
  let n := String.length s in
  if (width <=? n)%nat then s
  else
    match s with
    | String c r =>
        if Ascii.eqb c "+" || Ascii.eqb c "-"
        then String c (zeros (width - n) ++ r)%string
        else (zeros (width - n) ++ s)%string
    | EmptyString => zeros (width - n)
    end.

(** [int(s)] in base 10 on an ASCII string: surrounding white space is
    dropped, one sign is allowed, and the digits may be grouped by single
    underscores.  [None] stands for [ValueError]. *)
Definition is_space (c : ascii) : bool :=
  let n := nat_of_ascii c in
  ((n =? 32) || ((9 <=? n) && (n <=? 13)))%nat.

Definition digit (c : ascii) : option Z :=
  let n := nat_of_ascii c in
  if ((48 <=? n) && (n <=? 57))%nat then Some (Z.of_nat (n - 48)) else None.

Fixpoint lstrip (l : list ascii) : list ascii :=
  match l with
  | c :: r => if is_space c then lstrip r else l
  | [] => []
  end.

Definition strip (l : list ascii) : list ascii :=
  rev (lstrip (rev (lstrip l))).

Fixpoint digits (acc : Z) (after_digit : bool) (l : list ascii) : option Z :=
  match l with
  | [] => if after_digit then Some acc else None
  | c :: r =>
      match digit c with
      | Some d => digits (10 * acc + d) true r
      | None =>
          if Ascii.eqb c "_" && after_digit then digits acc false r else None
      end
  end.

Definition int (s : string) : option Z :=
  match strip (list_ascii_of_string s) with
  | c :: r =>
      if Ascii.eqb c "-" then option_map Z.opp (digits 0 false r)
      else if Ascii.eqb c "+" then digits 0 false r
      else digits 0 false (c :: r)
  | [] => None
  end.

(** [os.path.join] of [posixpath]. *)
Definition starts_with_sep (s : string) : bool :=
  match s with
  | String c _ => Ascii.eqb c "/"
  | EmptyString => false
  end.

Fixpoint ends_with_sep (s : string) : bool :=
  match s with
  | EmptyString => false
  | String c EmptyString => Ascii.eqb c "/"
  | String _ r => ends_with_sep r
  end.

Definition join2 (path b : string) : string :=
  if starts_with_sep b then b
  else if (String.length path =? 0)%nat || ends_with_sep path
       then (path ++ b)%string
       else (path ++ "/" ++ b)%string.

Definition join (a : string) (p : list string) : string := fold_left join2 p a.

(** [range(n)], [ord(c)], [x in l] on integers and ['{}.{}.jpg'.format(a, b)]. *)
Definition range (n : Z) : list Z := map Z.of_nat (seq 0 (Z.to_nat n)).

Definition ord (c : ascii) : Z := Z.of_nat (nat_of_ascii c).

Definition contains (l : list Z) (x : Z) : bool := existsb (Z.eqb x) l.

Definition format_jpg (a b : string) : string := (a ++ "." ++ b ++ ".jpg")%string.

End Py.

(** ** Data model *)

(** A decoded image: [shape0] rows, [shape1] columns (numpy's [shape[0]],
    [shape[1]]) and its pixel buffer. *)
Record Image := mkImage { shape0 : N; shape1 : N; pixels : list N }.

(** A bounding box [(xmin, ymin, xmax, ymax)]. *)
Record BBox := mkBBox { xmin : Z; ymin : Z; xmax : Z; ymax : Z }.

(** Modelled from the spec: the collaborators of [data_processing.py],
    [model_engineering.py] and OpenCV, none of them part of the sources:
    detector, cropper, normalizer, encoder, nearest-neighbour rule and the
    two drawing calls.  The encoder returns one embedding per input image,
    so it is given by what it returns for one image. *)
Class Collaborators := {
  Embedding : Type;
  detect_faces : Image -> list BBox;
  crop : Image -> BBox -> Image;
  process : Image -> Image;
  encode1 : Image -> Embedding;
  nearest : list (list Embedding * Z) -> Embedding -> Z;
  rectangle : Image -> Z * Z -> Z * Z -> Image;
  putText : Image -> string -> Z * Z -> Image
}.

(** Uncaught exceptions.  [CvError] is the failure of an OpenCV-based call
    that is handed [None] instead of an image. *)
Inductive Exn := ValueError | IndexError | FileNotFoundError | CvError.

Inductive Res (A : Type) :=
| Ok (a : A)
| Raise (e : Exn).
Arguments Ok {A} a.
Arguments Raise {A} e.

(** The file system: decoded files by path, in listing order. *)
Definition Files := list (string * Image).

Module Os.

Fixpoint strip_prefix (pre s : string) : option string :=
  match pre, s with
  | EmptyString, _ => Some s
  | String a pre', String b s' =>
      if Ascii.eqb a b then strip_prefix pre' s' else None
  | String _ _, EmptyString => None
  end.

Fixpoint has_sep (s : string) : bool :=
  match s with
  | EmptyString => false
  | String c r => Ascii.eqb c "/" || has_sep r
  end.

(** [os.listdir(directory)]: the names of the files directly inside
    [directory] (which is taken to exist). *)
Fixpoint listdir (directory : string) (files : Files) : list string :=
  match files with
  | [] => []
  | (p, _) :: rest =>
      match strip_prefix (Py.join directory [EmptyString]) p with
      | Some name =>
          if negb (has_sep name) && negb (String.eqb name EmptyString)
          then name :: listdir directory rest
          else listdir directory rest
      | None => listdir directory rest
      end
  end.

(** [cv2.imread(path)]: [None] when there is no such file. *)
Fixpoint imread (path : string) (files : Files) : option Image :=
  match files with
  | [] => None
  | (p, img) :: rest => if String.eqb p path then Some img else imread path rest
  end.

(** [cv2.imwrite(path, image)]: overwrites the file, or creates it. *)
Fixpoint imwrite (path : string) (image : Image) (files : Files) : Files :=
  match files with
  | [] => [(path, image)]
  | (p, img) :: rest =>
      if String.eqb p path then (p, image) :: rest
      else (p, img) :: imwrite path image rest
  end.

(** [os.remove(path)]: [FileNotFoundError] when there is no such file. *)
Fixpoint remove (path : string) (files : Files) : Res Files :=
  match files with
  | [] => Raise FileNotFoundError
  | (p, img) :: rest =>
      if String.eqb p path then Ok rest
      else match remove path rest with
           | Ok rest' => Ok ((p, img) :: rest')
           | Raise e => Raise e
           end
  end.

End Os.

(** A sample: the processed image, the encoder's output once assigned, the
    identity label. *)
Module Face.
Record t {C : Collaborators} := mk {
  image : Image;
  embedding : option (list Embedding);
  uid : Z
}.
End Face.

Module Person.
Record t := mk { uid : Z }.
End Person.

(** Modelled from the spec: the warehouse of [data_acquisition.py], which is
    not part of the sources.  An ordered collection of samples; [add]
    appends; [get_persons] gives one person per distinct uid present. *)
Module Warehouse.
Section Ops.
Context {C : Collaborators}.

Definition t := list Face.t.

Definition empty : t := [].

Definition add (warehouse : t) (face : Face.t) : t := warehouse ++ [face].

Definition get_faces (warehouse : t) : list Face.t := warehouse.

Definition get_persons (warehouse : t) : list Person.t :=
  map Person.mk (nodup Z.eq_dec (map Face.uid warehouse)).
End Ops.
End Warehouse.

(** The calls made by the body of [Execution.test], in program order. *)
Inductive Event :=
| Ev_get_frame
| Ev_detect_faces
| Ev_crop
| Ev_process
| Ev_encode
| Ev_knn_classify
| Ev_visualize
| Ev_imshow
| Ev_waitKey
| Ev_release
| Ev_destroyAllWindows
| Ev_imwrite (path : string)
| Ev_find_path
| Ev_find_all_files
| Ev_remove (path : string)
| Ev_acquire_data
| Ev_knn_fit.

(** The state the methods of an [Execution] object work on: the package
    directory, the file system, the two warehouses, the index of the last
    fit, and the trace of the session loop. *)
Record World {C : Collaborators} := mkWorld {
  pkg_dir : string;
  files : Files;
  trn_wh : Warehouse.t;
  tst_wh : Warehouse.t;
  knn : list (list Embedding * Z);
  trace : list Event
}.

(** ** State and exception monad *)

Section Monad.
Context {C : Collaborators}.

Definition M (A : Type) : Type := World -> Res A * World.

Definition ret {A} (a : A) : M A := fun w => (Ok a, w).

Definition bind {A B} (m : M A) (k : A -> M B) : M B :=
  fun w =>
    match m w with
    | (Ok a, w') => k a w'
    | (Raise e, w') => (Raise e, w')
    end.

Definition raise {A} (e : Exn) : M A := fun w => (Raise e, w).

Definition get : M World := fun w => (Ok w, w).

Definition emit (e : Event) : M unit :=
  fun w => (Ok tt, mkWorld _ (pkg_dir w) (files w) (trn_wh w) (tst_wh w)
                           (knn w) (trace w ++ [e])).

Definition set_files (fs : Files) : M unit :=
  fun w => (Ok tt, mkWorld _ (pkg_dir w) fs (trn_wh w) (tst_wh w)
                           (knn w) (trace w)).

Definition set_trn_wh (wh : Warehouse.t) : M unit :=
  fun w => (Ok tt, mkWorld _ (pkg_dir w) (files w) wh (tst_wh w)
                           (knn w) (trace w)).

Definition set_tst_wh (wh : Warehouse.t) : M unit :=
  fun w => (Ok tt, mkWorld _ (pkg_dir w) (files w) (trn_wh w) wh
                           (knn w) (trace w)).

Definition set_knn (index : list (list Embedding * Z)) : M unit :=
  fun w => (Ok tt, mkWorld _ (pkg_dir w) (files w) (trn_wh w) (tst_wh w)
                           index (trace w)).

(** A [for] loop run for its effects. *)
Fixpoint for_each {A} (l : list A) (body : A -> M unit) : M unit :=
  match l with
  | [] => ret tt
  | x :: rest => bind (body x) (fun _ => for_each rest body)
  end.
End Monad.

Notation "x <- m ;; k" := (bind m (fun x => k))
  (at level 61, m at next level, right associativity).
Notation "m ;;; k" := (bind m (fun _ => k))
  (at level 61, right associativity).

(** ** The search for an unused uid

    [new_uid = 0; while new_uid in existing_uids: new_uid += 1] (lines
    167-169 of [find_path]).  Each turn leaves one uid fewer at or above
    [new_uid], which is why the loop ends. *)

Definition pending (new_uid : Z) (existing_uids : list Z) : nat :=
  List.length (filter (fun u => new_uid <=? u) existing_uids).

Definition inspect {A} (a : A) : {b : A | a = b} := exist _ a eq_refl.

Equations next_free_uid (existing_uids : list Z) (new_uid : Z) : Z
  by wf (pending new_uid existing_uids) lt :=
  next_free_uid existing_uids new_uid
    with inspect (Py.contains existing_uids new_uid) := {
    | exist _ true _ => next_free_uid existing_uids (new_uid + 1)
    | exist _ false _ => new_uid }.
Next Obligation.
  clear next_free_uid.
  match goal with H : Py.contains _ _ = true |- _ => rename H into Hin end.
  unfold pending, Py.contains in *.
  induction existing_uids as [|u l IH]; simpl in *; [discriminate|].
  assert (Hle : (List.length (filter (fun v => (new_uid + 1 <=? v)%Z) l)
                 <= List.length (filter (fun v => (new_uid <=? v)%Z) l))%nat).
  { clear. induction l as [|v l IHl]; simpl; [lia|].
    destruct (new_uid + 1 <=? v) eqn:E1; destruct (new_uid <=? v) eqn:E2;
      simpl; lia. }
  destruct (new_uid =? u) eqn:E.
  - apply Z.eqb_eq in E. subst u.
    replace (new_uid + 1 <=? new_uid) with false by (symmetry; apply Z.leb_gt; lia).
    rewrite Z.leb_refl. simpl. lia.
  - simpl in Hin. specialize (IH Hin).
    destruct (new_uid + 1 <=? u) eqn:E1; destruct (new_uid <=? u) eqn:E2;
      simpl; lia.
Qed.

(** ** The methods of [Execution] *)

Module Execution.
Section Methods.
Context {C : Collaborators}.

(** Modelled from the spec: [ModelEngineering.encode], which is not part of
    the sources; a sequence of images gives one embedding per image. *)
Definition encode (images : list Image) : list Embedding := map encode1 images.

(** [sequence[0]]. *)
Definition index0 {A} (sequence : list A) : M A :=
  match sequence with
  | x :: _ => ret x
  | [] => raise IndexError
  end.

(** Modelled from the spec: [ModelEngineering.knn_fit] and [knn_classify],
    which are not part of the sources.  A fit replaces the index by the
    (embedding, uid) pairs of the given warehouse and fails on a sample
    without embedding; classification asks the nearest-neighbour rule. *)
Fixpoint pairs (faces : list Face.t) : option (list (list Embedding * Z)) :=
  match faces with
  | [] => Some []
  | face :: rest =>
      match Face.embedding face, pairs rest with
      | Some e, Some ps => Some ((e, Face.uid face) :: ps)
      | _, _ => None
      end
  end.

Definition knn_fit (warehouse : Warehouse.t) : M unit :=
  match pairs (Warehouse.get_faces warehouse) with
  | Some index => set_knn index
  | None => raise ValueError
  end.

Definition knn_classify (embedding : Embedding) : M Z :=
  w <- get ;; ret (nearest (knn w) embedding).

(** [os.path.join(self.pkg_dir, 'dataset', split)]. *)
Definition dataset (split : string) : M string :=
  w <- get ;; ret (Py.join (pkg_dir w) ["dataset"; split]).

(** *** [create_wh], lines 190-211 *)

(** The loop over the bounding boxes of one file. *)
Fixpoint add_faces (name_parts : list string) (image : Image)
    (bboxes : list BBox) (warehouse : Warehouse.t) : M Warehouse.t :=
  match bboxes with
  | [] => ret warehouse
  | bbox :: rest =>
      let face_img := crop image bbox in
      let face_img := process face_img in
      match Py.int (Py.first name_parts) with
      | None => raise ValueError
      | Some label =>
          add_faces name_parts image rest
            (Warehouse.add warehouse (Face.mk _ face_img None label))
      end
  end.

(** The loop over the directory listing. *)
Fixpoint read_listing (directory : string) (listing : list string)
    (warehouse : Warehouse.t) : M Warehouse.t :=
  match listing with
  | [] => ret warehouse
  | file :: rest =>
      let name_parts := Py.split "." file in
      if String.eqb (Py.last name_parts) "jpg" then
        let image_path := Py.join directory [file] in
        w <- get ;;
        match Os.imread image_path (files w) with
        | None => raise CvError
        | Some image =>
            warehouse <- add_faces name_parts image (detect_faces image) warehouse ;;
            read_listing directory rest warehouse
        end
      else read_listing directory rest warehouse
  end.

Definition create_wh (directory : string) : M Warehouse.t :=
  w <- get ;;
  read_listing directory (Os.listdir directory (files w)) Warehouse.empty.

(** *** [acquire_data], lines 28-40 *)

Definition set_embedding (face : Face.t) (e : list Embedding) : Face.t :=
  Face.mk _ (Face.image face) (Some e) (Face.uid face).

(** [for face in wh.get_faces(): face.embedding = encode([face.image])]. *)
Definition encode_faces (warehouse : Warehouse.t) : Warehouse.t :=
  map (fun face => set_embedding face (encode [Face.image face]))
      (Warehouse.get_faces warehouse).

Definition acquire_data : M unit :=
  trn_dir <- dataset "train" ;;
  tst_dir <- dataset "test" ;;
  wh <- create_wh trn_dir ;;
  set_trn_wh wh ;;;
  wh <- create_wh tst_dir ;;
  set_tst_wh wh ;;;
  w <- get ;;
  set_trn_wh (encode_faces (trn_wh w)) ;;;
  w <- get ;;
  set_tst_wh (encode_faces (tst_wh w)).

(** [self.model_engineering.knn_fit(self.data_acquisition.trn_wh)]. *)
Definition fit_training : M unit :=
  w <- get ;; knn_fit (trn_wh w).

(** [__init__], lines 19-26, from a package directory and a file system. *)
Definition init (pkg_dir : string) (fs : Files) : Res unit * World :=
  (acquire_data ;;; fit_training)
    (mkWorld _ pkg_dir fs Warehouse.empty Warehouse.empty [] []).

(** *** [visualize], lines 42-63 *)

Definition visualize (image : Image) (bbox : option BBox) (uid : Z) : Image :=
  match bbox with
  | None => image
  | Some b =>
      let start_pt := (xmin b, ymin b) in
      let end_pt := (xmax b, ymax b) in
      let _image := rectangle image start_pt end_pt in
      let origin := start_pt in
      putText _image (Py.str uid) origin
  end.

(** *** [id], lines 65-76 *)

Definition id (image : Image) : M Z :=
  let face_image := process image in
  embedding <- index0 (encode [face_image]) ;;
  knn_classify embedding.

(** *** The counting loop of [find_all_files] (lines 139-145) and of
    [find_path] (lines 175-181): the same statements in both methods. *)

Fixpoint count_samples (uid : Z) (listing : list string) (samples_num : Z)
  : M Z :=
  match listing with
  | [] => ret samples_num
  | file :: rest =>
      let name_parts := Py.split "." file in
      if String.eqb (Py.last name_parts) "jpg" then
        let image_uid := Py.first name_parts in
        match Py.int image_uid with
        | None => raise ValueError
        | Some n =>
            count_samples uid rest
              (if n =? uid then samples_num + 1 else samples_num)
        end
      else count_samples uid rest samples_num
  end.

(** *** [find_all_files], lines 132-153 *)

Definition find_all_files (uid : Z) : M (list string) :=
  dataset_dir <- dataset "train" ;;
  w <- get ;;
  samples_num <- count_samples uid (Os.listdir dataset_dir (files w)) 0 ;;
  ret (map (fun sample =>
              let del_face_uid := Py.zfill 4 (Py.str uid) in
              let del_face_number := Py.zfill 4 (Py.str sample) in
              let file_name := Py.format_jpg del_face_uid del_face_number in
              Py.join dataset_dir [file_name])
           (Py.range samples_num)).

(** *** [find_path], lines 155-188 (the [print] calls are left out) *)

Definition find_path (uid : Z) : M string :=
  dataset_dir <- dataset "train" ;;
  names <-
    (if uid =? -1 then
       w <- get ;;
       let persons := Warehouse.get_persons (trn_wh w) in
       let existing_uids := map Person.uid persons in
       let new_uid := next_free_uid existing_uids 0 in
       ret (Py.zfill 4 (Py.str new_uid), Py.zfill 4 (Py.str 0))
     else
       w <- get ;;
       samples_num <- count_samples uid (Os.listdir dataset_dir (files w)) 0 ;;
       ret (Py.zfill 4 (Py.str uid), Py.zfill 4 (Py.str samples_num))) ;;
  let file_name := Py.format_jpg (fst names) (snd names) in
  ret (Py.join dataset_dir [file_name]).

(** *** [test], lines 86-130 *)

(** What one turn of the loop reads from outside: the frame the camera
    delivers and the key [cv2.waitKey] returns if it is called. *)
Record Input := mkInput { frame : option Image; key : Z }.

Definition write (path : string) (image : Image) : M unit :=
  w <- get ;; set_files (Os.imwrite path image (files w)).

Definition remove (path : string) : M unit :=
  w <- get ;;
  match Os.remove path (files w) with
  | Ok fs => set_files fs
  | Raise e => raise e
  end.

(** The loop over the bounding boxes, lines 101-108. *)
Fixpoint per_face (bboxes : list BBox) (image : Image)
    (selected_face : option Image) (selected_uid : Z)
  : M (Image * option Image * Z) :=
  match bboxes with
  | [] => ret (image, selected_face, selected_uid)
  | bbox :: rest =>
      emit Ev_crop ;;;
      let cropped_face := crop image bbox in
      emit Ev_process ;;;
      let face := process cropped_face in
      emit Ev_encode ;;;
      let embedding := encode [face] in
      e0 <- index0 embedding ;;
      emit Ev_knn_classify ;;;
      uid <- knn_classify e0 ;;
      emit Ev_visualize ;;;
      let image := visualize image (Some bbox) uid in
      per_face rest image (Some cropped_face) uid
  end.

(** The reaction to the key, lines 112-130; the result is the new value of
    [stop]. *)
Definition command (k : Z) (image : Image) (selected_face : option Image)
    (selected_uid : Z) : M bool :=
  if k =? 27 then
    emit Ev_release ;;;
    emit Ev_destroyAllWindows ;;;
    ret true
  else if k =? Py.ord "s" then
    emit (Ev_imwrite "face.jpg") ;;;
    write "face.jpg" image ;;;
    ret false
  else if k =? Py.ord "a" then
    match selected_face with
    | Some face =>
        emit Ev_find_path ;;;
        image_path <- find_path selected_uid ;;
        emit (Ev_imwrite image_path) ;;;
        write image_path face ;;;
        emit Ev_acquire_data ;;;
        acquire_data ;;;
        emit Ev_knn_fit ;;;
        fit_training ;;;
        ret false
    | None => ret false
    end
  else if k =? Py.ord "d" then
    if negb (selected_uid =? -1) then
      emit Ev_find_all_files ;;;
      images_paths <- find_all_files selected_uid ;;
      for_each images_paths (fun path => emit (Ev_remove path) ;;; remove path) ;;;
      emit Ev_acquire_data ;;;
      acquire_data ;;;
      emit Ev_knn_fit ;;;
      fit_training ;;;
      ret false
    else ret false
  else ret false.

(** One turn of the [while] loop, lines 93-130. *)
Definition iteration (i : Input) : M bool :=
  emit Ev_get_frame ;;;
  match frame i with
  | None => ret false
  | Some image =>
      if negb (0 <? shape0 image)%N || negb (0 <? shape1 image)%N then ret false
      else
        emit Ev_detect_faces ;;;
        let bboxes := detect_faces image in
        selection <- per_face bboxes image None (-1) ;;
        emit Ev_imshow ;;;
        emit Ev_waitKey ;;;
        command (key i) (fst (fst selection)) (snd (fst selection)) (snd selection)
  end.

(** The loop over the turns the given inputs allow; the result is the value
    of [stop] when the inputs are used up or the loop has ended. *)
Fixpoint test (inputs : list Input) : M bool :=
  match inputs with
  | [] => ret false
  | i :: rest =>
      stop <- iteration i ;;
      if stop then ret true else test rest
  end.

End Methods.
End Execution.

(** ** A concrete set of collaborators, for evaluating the methods

    Every pixel value of an image is a face: the detector returns one box
    per pixel, the cropper keeps that pixel, and the embedding of a crop is
    its pixel.  The nearest-neighbour rule answers the uid of the first
    stored sample whose embedding sequence is the query alone, and -1 when
    there is none. *)

Module Sample.

Definition detect (image : Image) : list BBox :=
  map (fun p => mkBBox (Z.of_N p) 0 (Z.of_N p) 0) (pixels image).

Definition crop_pixel (image : Image) (bbox : BBox) : Image :=
  mkImage 1 1 [Z.to_N (xmin bbox)].

Definition pixel (image : Image) : N := hd 0%N (pixels image).

Fixpoint lookup (index : list (list N * Z)) (query : N) : Z :=
  match index with
  | [] => -1
  | ([e], uid) :: rest => if N.eqb e query then uid else lookup rest query
  | _ :: rest => lookup rest query
  end.

Definition collaborators : Collaborators := {|
  Embedding := N;
  detect_faces := detect;
  crop := crop_pixel;
  process := fun image => image;
  encode1 := pixel;
  nearest := lookup;
  rectangle := fun image _ _ => image;
  putText := fun image _ _ => image
|}.

(** A picture with the given faces. *)
Definition picture (faces : list N) : Image := mkImage 4 4 faces.

(** Training files of uids 0, 1 (three samples) and 3, one test file. *)
Definition gallery : Files :=
  [ ("/pkg/dataset/train/0000.0000.jpg", picture [10%N]);
    ("/pkg/dataset/train/0001.0000.jpg", picture [11%N]);
    ("/pkg/dataset/train/0001.0001.jpg", picture [12%N]);
    ("/pkg/dataset/train/0001.0002.jpg", picture [13%N]);
    ("/pkg/dataset/train/0003.0000.jpg", picture [14%N]);
    ("/pkg/dataset/train/notes.txt", picture []);
    ("/pkg/dataset/test/0001.0000.jpg", picture [11%N]) ].

Definition started : World (C := collaborators) :=
  snd (Execution.init "/pkg" gallery).

(** A training directory that also holds a picture without a face whose
    name is not an identifier. *)
Definition cluttered : Files :=
  [ ("/pkg/dataset/train/0001.0000.jpg", picture [11%N]);
    ("/pkg/dataset/train/notes.jpg", picture []) ].

Definition started_cluttered : World (C := collaborators) :=
  snd (Execution.init "/pkg" cluttered).

(** A training directory with a picture without a face and a picture with
    two faces, and one whose only picture shows a face under a name that is
    not an identifier. *)
Definition crowd : Files :=
  [ ("/pkg/dataset/train/0001.0000.jpg", picture []);
    ("/pkg/dataset/train/0002.0000.jpg", picture [5%N; 6%N]) ].

Definition portrait : Files :=
  [ ("/pkg/dataset/train/notes.jpg", picture [9%N]) ].

(** The world of an object under construction, before [acquire_data]. *)
Definition fresh (fs : Files) : World (C := collaborators) :=
  mkWorld _ "/pkg" fs Warehouse.empty Warehouse.empty [] [].

(** A frame with one known face (uid 1), a frame with an unknown face, a
    frame without face and a frame without rows. *)
Definition known : Image := picture [12%N].

Definition unknown : Image := picture [77%N].

Definition empty_scene : Image := picture [].

Definition flat : Image := mkImage 0 4 [].

(** An enrollment, a dropped frame, the key 27 and a frame never read. *)
Definition session : list Execution.Input :=
  [ Execution.mkInput (Some unknown) (Py.ord "a");
    Execution.mkInput None 0;
    Execution.mkInput (Some empty_scene) 27;
    Execution.mkInput (Some known) (Py.ord "d") ].

End Sample.


(** ** Vocabulary of the properties *)

Section Vocabulary.
Context {C : Collaborators}.

(** The world after more calls have been logged. *)
Definition logged (w : World) (events : list Event) : World :=
  mkWorld _ (pkg_dir w) (files w) (trn_wh w) (tst_wh w) (knn w)
          (trace w ++ events).

(** The training and the test directory of a world, and their listings. *)
Definition trn_dir (w : World) : string := Py.join (pkg_dir w) ["dataset"; "train"].

Definition tst_dir (w : World) : string := Py.join (pkg_dir w) ["dataset"; "test"].

Definition trn_listing (w : World) : list string := Os.listdir (trn_dir w) (files w).

(** A file name whose last dot-separated component is [jpg], and the
    integer its first component parses to. *)
Definition is_jpg (file : string) : bool :=
  String.eqb (Py.last (Py.split "." file)) "jpg".

Definition uid_of (file : string) : option Z :=
  Py.int (Py.first (Py.split "." file)).

Definition names_uid (uid : Z) (file : string) : bool :=
  is_jpg file &&
  match uid_of file with
  | Some n => n =? uid
  | None => false
  end.

(** The number of [jpg] files of a listing whose first component parses to
    [uid]. *)
Definition file_count (uid : Z) (listing : list string) : Z :=
  Z.of_nat (List.length (filter (names_uid uid) listing)).

(** Every [jpg] file of the listing has a first component that parses. *)
Definition parses (file : string) : bool :=
  match uid_of file with
  | Some _ => true
  | None => false
  end.

Definition well_named (listing : list string) : Prop :=
  forallb (fun file => implb (is_jpg file) (parses file)) listing = true.

(** The path of the identifier [(uid, sample_index)] in a directory. *)
Definition sample_path (directory : string) (uid sample_index : Z) : string :=
  Py.join directory
    [Py.format_jpg (Py.zfill 4 (Py.str uid)) (Py.zfill 4 (Py.str sample_index))].

(** The sample [create_wh] makes of a bounding box, and the samples it makes
    of a file of a directory. *)
Definition sample_of (label : Z) (image : Image) (bbox : BBox) : Face.t :=
  Face.mk _ (process (crop image bbox)) None label.

Definition samples_of_file (directory : string) (fs : Files) (file : string)
  : list Face.t :=
  if is_jpg file then
    match Os.imread (Py.join directory [file]) fs, uid_of file with
    | Some image, Some label => map (sample_of label image) (detect_faces image)
    | _, _ => []
    end
  else [].

(** The detector finds a face in the file. *)
Definition has_face (directory : string) (fs : Files) (file : string) : bool :=
  match Os.imread (Py.join directory [file]) fs with
  | Some image =>
      match detect_faces image with
      | [] => false
      | _ :: _ => true
      end
  | None => false
  end.

(** Every [jpg] file of the directory in which the detector finds a face
    has a first component that parses. *)
Definition faces_well_named (directory : string) (fs : Files) : Prop :=
  forallb (fun file =>
             implb (is_jpg file && has_face directory fs file) (parses file))
          (Os.listdir directory fs) = true.

(** The number of samples of a warehouse with a given uid. *)
Definition sample_count (uid : Z) (warehouse : Warehouse.t) : Z :=
  Z.of_nat (List.length (filter (fun face => Face.uid face =? uid) warehouse)).

(** Both warehouses are what [create_wh] builds from the directories as
    they are now, every sample holding the encoder's output for its image;
    and the index holds the pairs of the training warehouse. *)
Definition reacquired (w : World) : Prop :=
  exists trn tst,
    fst (Execution.create_wh (trn_dir w) w) = Ok trn /\
    fst (Execution.create_wh (tst_dir w) w) = Ok tst /\
    trn_wh w = Execution.encode_faces trn /\
    tst_wh w = Execution.encode_faces tst.

Definition refitted (w : World) : Prop :=
  Execution.pairs (trn_wh w) = Some (knn w).

(** The uids of the persons of the training warehouse. *)
Definition person_uids (w : World) : list Z :=
  map Person.uid (Warehouse.get_persons (trn_wh w)).

(** The number of calls of [release] in the trace. *)
Definition is_release (e : Event) : bool :=
  match e with
  | Ev_release => true
  | _ => false
  end.

Definition releases (w : World) : nat :=
  List.length (filter is_release (trace w)).

(** The frame of an input can be processed: it is there and has rows and
    columns.  The outcome of a turn or of the loop sets [stop]. *)
Definition usable (i : Execution.Input) : bool :=
  match Execution.frame i with
  | Some image => (0 <? shape0 image)%N && (0 <? shape1 image)%N
  | None => false
  end.

Definition stops (r : Res bool) : bool :=
  match r with
  | Ok true => true
  | _ => false
  end.

(** A computation that does not set [stop]. *)
Definition never_stops (m : M bool) : Prop := forall w, stops (fst (m w)) = false.

(** A computation that leaves the world as it is, and one that leaves an
    observation of the world as it is. *)
Definition read_only {A} (m : M A) : Prop := forall w, snd (m w) = w.

Definition preserves {A B} (f : World -> B) (m : M A) : Prop :=
  forall w, f (snd (m w)) = f w.

End Vocabulary.

(** ** General facts about the monad *)

Section MonadFacts.
Context {C : Collaborators}.

Lemma bind_ok {A B} (m : M A) (k : A -> M B) w a w1 :
  m w = (Ok a, w1) -> bind m k w = k a w1.
Proof. intros H. unfold bind. rewrite H. reflexivity. Qed.

Lemma bind_raise {A B} (m : M A) (k : A -> M B) w e w1 :
  m w = (Raise e, w1) -> bind m k w = (Raise e, w1).
Proof. intros H. unfold bind. rewrite H. reflexivity. Qed.

Lemma bind_inv {A B} (m : M A) (k : A -> M B) w r w' :
  bind m k w = (r, w') ->
  (exists a w1, m w = (Ok a, w1) /\ k a w1 = (r, w')) \/
  (exists e, m w = (Raise e, w') /\ r = Raise e).
Proof.
  unfold bind. destruct (m w) as [[a|e] w1]; intros H.
  - left. exists a, w1. auto.
  - right. exists e. inversion H. auto.
Qed.

Lemma read_only_run {A} (m : M A) w : read_only m -> m w = (fst (m w), w).
Proof. intros H. rewrite <- (H w) at 3. apply surjective_pairing. Qed.

Lemma read_only_ret {A} (a : A) : read_only (ret a).
Proof. intros w. reflexivity. Qed.

Lemma read_only_raise {A} e : read_only (@raise _ A e).
Proof. intros w. reflexivity. Qed.

Lemma read_only_get : read_only get.
Proof. intros w. reflexivity. Qed.

Lemma read_only_bind {A B} (m : M A) (k : A -> M B) :
  read_only m -> (forall a, read_only (k a)) -> read_only (bind m k).
Proof.
  intros Hm Hk w. unfold bind. specialize (Hm w).
  destruct (m w) as [[a|e] w1]; simpl in *; subst; auto. apply Hk.
Qed.

Lemma read_only_preserves {A B} (f : World -> B) (m : M A) :
  read_only m -> preserves f m.
Proof. intros H w. rewrite H. reflexivity. Qed.

Lemma preserves_ret {A B} (f : World -> B) (a : A) : preserves f (ret a).
Proof. intros w. reflexivity. Qed.

Lemma preserves_raise {A B} (f : World -> B) e : preserves f (@raise _ A e).
Proof. intros w. reflexivity. Qed.

Lemma preserves_get {B} (f : World -> B) : preserves f get.
Proof. intros w. reflexivity. Qed.

Lemma preserves_bind {A B D} (f : World -> D) (m : M A) (k : A -> M B) :
  preserves f m -> (forall a, preserves f (k a)) -> preserves f (bind m k).
Proof.
  intros Hm Hk w. unfold bind. specialize (Hm w).
  destruct (m w) as [[a|e] w1]; simpl in *; auto.
  rewrite Hk. assumption.
Qed.

Lemma preserves_for_each {A D} (f : World -> D) (l : list A) body :
  (forall x, preserves f (body x)) -> preserves f (for_each l body).
Proof.
  intros Hb. induction l as [|x l IH]; simpl.
  - apply preserves_ret.
  - apply preserves_bind; auto.
Qed.

End MonadFacts.

Create HintDb run discriminated.
#[export] Hint Resolve read_only_ret read_only_raise read_only_get
  read_only_bind preserves_ret preserves_raise preserves_get preserves_bind
  preserves_for_each : run.

(** ** The allocator and the deletion enumeration *)

Section Allocator.
Context {C : Collaborators}.

Lemma read_only_dataset split : read_only (Execution.dataset split).
Proof. unfold Execution.dataset. auto with run. Qed.

Lemma dataset_run split w :
  Execution.dataset split w = (Ok (Py.join (pkg_dir w) ["dataset"; split]), w).
Proof. reflexivity. Qed.

Lemma count_samples_read_only uid listing n :
  read_only (Execution.count_samples uid listing n).
Proof.
  revert n. induction listing as [|file rest IH]; intros n; simpl.
  - auto with run.
  - destruct (String.eqb _ "jpg"); [|apply IH].
    destruct (Py.int _); auto with run.
Qed.

Lemma read_only_find_all_files uid : read_only (Execution.find_all_files uid).
Proof.
  unfold Execution.find_all_files.
  repeat (apply read_only_bind; [|intros ?]);
    auto using read_only_dataset, count_samples_read_only with run.
Qed.

Lemma read_only_find_path uid : read_only (Execution.find_path uid).
Proof.
  unfold Execution.find_path.
  apply read_only_bind; [apply read_only_dataset|intros d].
  apply read_only_bind; [|auto with run].
  destruct (uid =? -1);
    repeat (apply read_only_bind; [|intros ?]);
    auto using count_samples_read_only with run.
Qed.

(** The loop of [find_path] stops at the least unused integer from where
    it starts. *)
Lemma next_free_uid_least existing_uids new_uid :
  let u := next_free_uid existing_uids new_uid in
  new_uid <= u /\
  Py.contains existing_uids u = false /\
  forall v, new_uid <= v < u -> Py.contains existing_uids v = true.
Proof.
  funelim (next_free_uid existing_uids new_uid).
  - destruct H as (Hle & Hout & Hin). repeat split; [lia|assumption|].
    intros v Hv. destruct (Z.eq_dec v new_uid) as [->|Hne]; [assumption|].
    apply Hin. lia.
  - repeat split; [lia|assumption|]. intros v Hv. lia.
Qed.

Lemma contains_In l x : Py.contains l x = true <-> In x l.
Proof.
  unfold Py.contains. rewrite existsb_exists. split.
  - intros (y & Hy & E). apply Z.eqb_eq in E. subst. assumption.
  - intros H. exists x. split; [assumption|apply Z.eqb_refl].
Qed.

Lemma person_uids_In (w : World) v :
  In v (person_uids w) <-> In v (map Face.uid (trn_wh w)).
Proof.
  unfold person_uids, Warehouse.get_persons. rewrite map_map. simpl.
  rewrite map_id. apply nodup_In.
Qed.

Lemma count_samples_run uid listing n w :
  well_named listing ->
  Execution.count_samples uid listing n w = (Ok (n + file_count uid listing), w).
Proof.
  unfold well_named, file_count. revert n.
  induction listing as [|file rest IH]; intros n Hwn; simpl in *.
  - rewrite Z.add_0_r. reflexivity.
  - apply andb_prop in Hwn. destruct Hwn as [Hfile Hrest].
    unfold names_uid, parses, is_jpg, uid_of in *.
    destruct (String.eqb (Py.last (Py.split "." file)) "jpg"); simpl in *.
    + destruct (Py.int (Py.first (Py.split "." file))) as [k|]; [|discriminate].
      rewrite (IH _ Hrest). destruct (k =? uid); simpl; do 2 f_equal; lia.
    + apply (IH _ Hrest).
Qed.

(** C2. Asked for a path with the uid -1, the allocator returns the path of
    the identifier [(new_uid, 0)] in the training directory, where [new_uid]
    is the least non-negative integer that is the uid of no person of the
    training warehouse, that is of no sample of it; the world is left as it
    is.  With the uids 0, 1 and 3 in use, [new_uid] is 2. *)
Theorem C2_new_identity_is_first_gap :
  forall w : World,
  exists new_uid,
    Execution.find_path (-1) w = (Ok (sample_path (trn_dir w) new_uid 0), w) /\
    0 <= new_uid /\
    ~ In new_uid (person_uids w) /\
    (forall v, 0 <= v < new_uid -> In v (person_uids w)) /\
    (forall v, In v (person_uids w) <-> In v (map Face.uid (trn_wh w))) /\
    ((forall v, In v (person_uids w) <-> In v [0; 1; 3]) -> new_uid = 2).
Proof.
  intros w. exists (next_free_uid (person_uids w) 0).
  destruct (next_free_uid_least (person_uids w) 0) as (Hle & Hout & Hin).
  split; [reflexivity|]. split; [assumption|].
  assert (Hnot : ~ In (next_free_uid (person_uids w) 0) (person_uids w)).
  { rewrite <- contains_In. rewrite Hout. discriminate. }
  assert (Hbelow : forall v, 0 <= v < next_free_uid (person_uids w) 0 ->
                             In v (person_uids w)).
  { intros v Hv. apply contains_In. apply Hin. assumption. }
  repeat split; try assumption; try apply person_uids_In.
  intros Huids.
  destruct (Z.lt_trichotomy (next_free_uid (person_uids w) 0) 2) as [Hlt|[Heq|Hgt]].
  - exfalso. apply Hnot. apply Huids. simpl. lia.
  - assumption.
  - assert (H2 : In 2 (person_uids w)) by (apply Hbelow; lia).
    apply Huids in H2. simpl in H2. lia.
Qed.

(** C3. For a non-negative uid and a training directory in
    which the first name component of every [jpg] file parses as an integer,
    the allocator returns the path of the identifier [(uid, count)], where
    [count] is the number of [jpg] files of the directory whose first
    component parses to [uid]; the world is left as it is. *)
Theorem C3_existing_identity_appends :
  forall (w : World) (uid : Z),
    0 <= uid ->
    well_named (trn_listing w) ->
    Execution.find_path uid w =
      (Ok (sample_path (trn_dir w) uid (file_count uid (trn_listing w))), w).
Proof.
  intros w uid Hpos Hwn.
  unfold Execution.find_path.
  rewrite (bind_ok _ _ _ _ _ (dataset_run "train" w)).
  replace (uid =? -1) with false by (symmetry; apply Z.eqb_neq; lia).
  fold (trn_dir w). unfold bind, get, ret. cbv beta iota.
  fold (trn_listing w).
  rewrite (count_samples_run uid _ 0 w Hwn). reflexivity.
Qed.

(** C4. For a training directory in which the first name
    component of every [jpg] file parses as an integer, the deletion
    enumeration returns the paths of the identifiers [(uid, 0)], ...,
    [(uid, count - 1)], in this order and no others, where [count] is the
    number of [jpg] files whose first component parses to [uid]; the world
    is left as it is. *)
Theorem C4_deletion_enumerates_below_count :
  forall (w : World) (uid : Z),
    well_named (trn_listing w) ->
    Execution.find_all_files uid w =
      (Ok (map (sample_path (trn_dir w) uid)
               (Py.range (file_count uid (trn_listing w)))), w).
Proof.
  intros w uid Hwn.
  unfold Execution.find_all_files.
  rewrite (bind_ok _ _ _ _ _ (dataset_run "train" w)).
  fold (trn_dir w). unfold bind, get, ret. cbv beta iota.
  fold (trn_listing w).
  rewrite (count_samples_run uid _ 0 w Hwn). reflexivity.
Qed.

End Allocator.

(** ** The allocator on concrete galleries *)

Section AllocatorExamples.
#[local] Existing Instance Sample.collaborators.

Lemma C2_witness :
  (forall v, In v (person_uids Sample.started) <-> In v [0; 1; 3]) /\
  Execution.find_path (-1) Sample.started =
    (Ok "/pkg/dataset/train/0002.0000.jpg", Sample.started).
Proof.
  assert (Huids : forall v, In v (person_uids Sample.started) <-> In v [0; 1; 3]).
  { intros v. vm_compute. tauto. }
  split; [exact Huids|].
  destruct (C2_new_identity_is_first_gap Sample.started)
    as (new_uid & Hpath & _ & _ & _ & _ & Htwo).
  rewrite Hpath, (Htwo Huids). reflexivity.
Defined.

Lemma C3_witness :
  file_count 1 (trn_listing Sample.started) = 3 /\
  Execution.find_path 1 Sample.started =
    (Ok "/pkg/dataset/train/0001.0003.jpg", Sample.started).
Proof.
  split; [reflexivity|].
  exact (C3_existing_identity_appends Sample.started 1 ltac:(lia) eq_refl).
Defined.

Lemma C3_counterexample :
  fst (Execution.init "/pkg" Sample.cluttered) = Ok tt /\
  trn_listing Sample.started_cluttered = ["0001.0000.jpg"; "notes.jpg"] /\
  file_count 1 (trn_listing Sample.started_cluttered) = 1 /\
  Execution.find_path 1 Sample.started_cluttered =
    (Raise ValueError, Sample.started_cluttered) /\
  Execution.find_path 1 Sample.started_cluttered <>
    (Ok (sample_path (trn_dir Sample.started_cluttered) 1
           (file_count 1 (trn_listing Sample.started_cluttered))),
     Sample.started_cluttered).
Proof.
  repeat split; try reflexivity.
  vm_compute. discriminate.
Qed.

Lemma C4_witness :
  file_count 1 (trn_listing Sample.started) = 3 /\
  Execution.find_all_files 1 Sample.started =
    (Ok ["/pkg/dataset/train/0001.0000.jpg";
         "/pkg/dataset/train/0001.0001.jpg";
         "/pkg/dataset/train/0001.0002.jpg"], Sample.started).
Proof.
  split; [reflexivity|].
  exact (C4_deletion_enumerates_below_count Sample.started 1 eq_refl).
Defined.

Lemma C4_counterexample :
  file_count 1 (trn_listing Sample.started_cluttered) = 1 /\
  Execution.find_all_files 1 Sample.started_cluttered =
    (Raise ValueError, Sample.started_cluttered) /\
  Execution.find_all_files 1 Sample.started_cluttered <>
    (Ok (map (sample_path (trn_dir Sample.started_cluttered) 1)
             (Py.range (file_count 1 (trn_listing Sample.started_cluttered)))),
     Sample.started_cluttered).
Proof.
  repeat split; try reflexivity.
  vm_compute. discriminate.
Qed.

End AllocatorExamples.

(** ** Building a warehouse from a directory *)

Section CreateWh.
Context {C : Collaborators}.

Lemma append_nil_r (s : string) : (s ++ EmptyString)%string = s.
Proof. induction s as [|c s IH]; simpl; [reflexivity|]. rewrite IH. reflexivity. Qed.

Lemma append_assoc (a b c : string) :
  ((a ++ b) ++ c)%string = (a ++ (b ++ c))%string.
Proof. induction a as [|x a IH]; simpl; [reflexivity|]. rewrite IH. reflexivity. Qed.

Lemma strip_prefix_append pre p name :
  Os.strip_prefix pre p = Some name -> p = (pre ++ name)%string.
Proof.
  revert p. induction pre as [|a pre IH]; intros p H; simpl in *.
  - inversion H. reflexivity.
  - destruct p as [|b p]; [discriminate|].
    destruct (Ascii.eqb a b) eqn:E; [|discriminate].
    apply Ascii.eqb_eq in E. subst b. f_equal. apply IH. assumption.
Qed.

Lemma has_sep_starts name :
  Os.has_sep name = false -> Py.starts_with_sep name = false.
Proof.
  destruct name as [|c name]; simpl; [reflexivity|].
  intros H. apply orb_false_iff in H. apply H.
Qed.

(** A name without separator is joined to a directory as the empty name
    is, followed by the name. *)
Lemma join_name directory name :
  Os.has_sep name = false ->
  Py.join directory [name] = (Py.join directory [EmptyString] ++ name)%string.
Proof.
  intros H. unfold Py.join. simpl. unfold Py.join2.
  rewrite (has_sep_starts _ H). simpl.
  destruct ((String.length directory =? 0)%nat || Py.ends_with_sep directory).
  - rewrite append_nil_r. reflexivity.
  - rewrite !append_assoc. reflexivity.
Qed.

Lemma imread_In path image (fs : Files) :
  In (path, image) fs -> Os.imread path fs <> None.
Proof.
  induction fs as [|[p img] fs IH]; simpl; [tauto|].
  intros [H|H].
  - inversion H. subst. rewrite String.eqb_refl. discriminate.
  - destruct (String.eqb p path); [discriminate|auto].
Qed.

(** Every listed file can be read back. *)
Lemma imread_listdir directory (fs : Files) file :
  In file (Os.listdir directory fs) ->
  Os.imread (Py.join directory [file]) fs <> None.
Proof.
  intros Hin.
  assert (H : exists image, In (Py.join directory [file], image) fs).
  { induction fs as [|[p img] fs IH]; cbn [Os.listdir In] in *; [tauto|].
    destruct (Os.strip_prefix (Py.join directory [EmptyString]) p) as [name|] eqn:E.
    - destruct (negb (Os.has_sep name) && negb (String.eqb name EmptyString)) eqn:Ename.
      + destruct Hin as [Hn|Hin].
        * subst name. apply andb_prop in Ename. destruct Ename as [Hsep _].
          apply negb_true_iff in Hsep.
          exists img. left. rewrite (join_name _ _ Hsep).
          rewrite (strip_prefix_append _ _ _ E). reflexivity.
        * destruct (IH Hin) as (image & Himg). exists image. right. assumption.
      + destruct (IH Hin) as (image & Himg). exists image. right. assumption.
    - destruct (IH Hin) as (image & Himg). exists image. right. assumption. }
  destruct H as (image & Himg). apply (imread_In _ _ _ Himg).
Qed.

Lemma add_faces_read_only name_parts image bboxes warehouse :
  read_only (Execution.add_faces name_parts image bboxes warehouse).
Proof.
  revert warehouse. induction bboxes as [|bbox rest IH]; intros wh; simpl.
  - auto with run.
  - destruct (Py.int _); auto with run.
Qed.

Lemma read_listing_read_only directory listing warehouse :
  read_only (Execution.read_listing directory listing warehouse).
Proof.
  revert warehouse. induction listing as [|file rest IH]; intros wh; simpl.
  - auto with run.
  - destruct (String.eqb _ "jpg"); [|apply IH].
    apply read_only_bind; [auto with run|intros w].
    destruct (Os.imread _ _); [|auto with run].
    apply read_only_bind; [apply add_faces_read_only|intros wh'; apply IH].
Qed.

Lemma read_only_create_wh directory : read_only (Execution.create_wh directory).
Proof.
  unfold Execution.create_wh.
  apply read_only_bind; [auto with run|intros w]. apply read_listing_read_only.
Qed.

Lemma add_faces_run name_parts label image bboxes warehouse w :
  Py.int (Py.first name_parts) = Some label ->
  Execution.add_faces name_parts image bboxes warehouse w =
    (Ok (warehouse ++ map (sample_of label image) bboxes), w).
Proof.
  intros Hint. revert warehouse.
  induction bboxes as [|bbox rest IH]; intros wh; simpl.
  - rewrite app_nil_r. reflexivity.
  - rewrite Hint. rewrite IH. unfold Warehouse.add. rewrite <- app_assoc.
    reflexivity.
Qed.

Lemma read_listing_run directory listing warehouse w :
  (forall file, In file listing ->
                Os.imread (Py.join directory [file]) (files w) <> None) ->
  forallb (fun file =>
             implb (is_jpg file && has_face directory (files w) file)
                   (parses file)) listing = true ->
  Execution.read_listing directory listing warehouse w =
    (Ok (warehouse ++ flat_map (samples_of_file directory (files w)) listing), w).
Proof.
  revert warehouse.
  induction listing as [|file rest IH]; intros wh Hread Hnamed;
    cbn [forallb flat_map Execution.read_listing] in *.
  - rewrite app_nil_r. reflexivity.
  - apply andb_prop in Hnamed. destruct Hnamed as [Hfile Hrest].
    assert (Hrest' : forall f, In f rest ->
              Os.imread (Py.join directory [f]) (files w) <> None).
    { intros f Hf. apply Hread. right. assumption. }
    specialize (Hread file (or_introl eq_refl)).
    unfold samples_of_file at 1.
    unfold has_face, parses, uid_of, is_jpg in *.
    destruct (String.eqb (Py.last (Py.split "." file)) "jpg");
      [|apply (IH _ Hrest' Hrest)].
    unfold bind at 1, get. cbv beta iota.
    destruct (Os.imread (Py.join directory [file]) (files w)) as [image|];
      [|congruence].
    destruct (Py.int (Py.first (Py.split "." file))) as [label|] eqn:Hint.
    + rewrite (bind_ok _ _ _ _ _ (add_faces_run _ _ _ _ _ _ Hint)).
      rewrite (IH _ Hrest' Hrest). rewrite <- app_assoc. reflexivity.
    + destruct (detect_faces image) as [|bbox bboxes]; [|discriminate].
      cbn [Execution.add_faces]. unfold bind, ret. cbv beta iota.
      apply (IH _ Hrest' Hrest).
Qed.

Lemma create_wh_run directory (w : World) :
  faces_well_named directory (files w) ->
  Execution.create_wh directory w =
    (Ok (flat_map (samples_of_file directory (files w))
                  (Os.listdir directory (files w))), w).
Proof.
  intros Hnamed. unfold Execution.create_wh, bind at 1, get. cbv beta iota.
  rewrite (read_listing_run directory _ Warehouse.empty w).
  - reflexivity.
  - intros file Hin. apply imread_listdir. assumption.
  - exact Hnamed.
Qed.

(** C10. For a directory in which every [jpg] file where the
    detector finds a face has a first name component that parses as an
    integer, [create_wh] returns, in listing order and for each [jpg] file,
    one sample per bounding box the detector finds in it, labelled with the
    integer of the first name component; a file that is not [jpg] and a file
    without face give no sample, and a file gives as many samples as the
    detector finds boxes.  On a concrete directory the number of samples of
    a uid differs from the number of files of that uid. *)
Theorem C10_one_sample_per_bounding_box :
  forall directory (w : World),
    faces_well_named directory (files w) ->
    Execution.create_wh directory w =
      (Ok (flat_map (samples_of_file directory (files w))
                    (Os.listdir directory (files w))), w) /\
    (forall file, is_jpg file = false ->
                  samples_of_file directory (files w) file = []) /\
    (forall file image label,
        is_jpg file = true ->
        Os.imread (Py.join directory [file]) (files w) = Some image ->
        uid_of file = Some label ->
        samples_of_file directory (files w) file =
          map (fun bbox => Face.mk _ (process (crop image bbox)) None label)
              (detect_faces image)) /\
    (exists warehouse,
        Execution.create_wh "/pkg/dataset/train" (Sample.fresh Sample.crowd) =
          (Ok warehouse, Sample.fresh Sample.crowd) /\
        file_count 1 (trn_listing (Sample.fresh Sample.crowd)) = 1 /\
        sample_count 1 warehouse = 0 /\
        file_count 2 (trn_listing (Sample.fresh Sample.crowd)) = 1 /\
        sample_count 2 warehouse = 2).
Proof.
  intros directory w Hnamed. repeat split.
  - apply create_wh_run. exact Hnamed.
  - intros file Hjpg. unfold samples_of_file. rewrite Hjpg. reflexivity.
  - intros file image label Hjpg Hread Hlabel. unfold samples_of_file.
    rewrite Hjpg, Hread, Hlabel. reflexivity.
  - eexists. repeat split; vm_compute; reflexivity.
Qed.

End CreateWh.

Section CreateWhExamples.
#[local] Existing Instance Sample.collaborators.

Lemma C10_witness :
  faces_well_named "/pkg/dataset/train" Sample.crowd /\
  Execution.create_wh "/pkg/dataset/train" (Sample.fresh Sample.crowd) =
    (Ok [ Face.mk _ (mkImage 1 1 [5%N]) None 2;
          Face.mk _ (mkImage 1 1 [6%N]) None 2 ],
     Sample.fresh Sample.crowd).
Proof.
  split; [reflexivity|].
  exact (proj1 (C10_one_sample_per_bounding_box "/pkg/dataset/train"
                  (Sample.fresh Sample.crowd) eq_refl)).
Defined.

Lemma C10_counterexample :
  Os.listdir "/pkg/dataset/train" Sample.portrait = ["notes.jpg"] /\
  is_jpg "notes.jpg" = true /\
  has_face "/pkg/dataset/train" Sample.portrait "notes.jpg" = true /\
  Execution.create_wh "/pkg/dataset/train" (Sample.fresh Sample.portrait) =
    (Raise ValueError, Sample.fresh Sample.portrait) /\
  Execution.create_wh "/pkg/dataset/train" (Sample.fresh Sample.portrait) <>
    (Ok (flat_map (samples_of_file "/pkg/dataset/train" Sample.portrait)
                  (Os.listdir "/pkg/dataset/train" Sample.portrait)),
     Sample.fresh Sample.portrait).
Proof.
  repeat split; try reflexivity.
  vm_compute. discriminate.
Qed.

End CreateWhExamples.


(** ** Reacquiring and refitting *)

Section Reacquire.
Context {C : Collaborators}.

Lemma emit_run e (w : World) : emit e w = (Ok tt, logged w [e]).
Proof. reflexivity. Qed.

Lemma logged_logged (w : World) l1 l2 : logged (logged w l1) l2 = logged w (l1 ++ l2).
Proof. unfold logged. simpl. rewrite <- app_assoc. reflexivity. Qed.

Lemma add_faces_any_world name_parts image bboxes warehouse (w1 w2 : World) :
  fst (Execution.add_faces name_parts image bboxes warehouse w1) =
  fst (Execution.add_faces name_parts image bboxes warehouse w2).
Proof.
  revert warehouse. induction bboxes as [|bbox rest IH]; intros wh; simpl.
  - reflexivity.
  - destruct (Py.int _); [apply IH|reflexivity].
Qed.

Lemma read_listing_same_files directory listing warehouse (w1 w2 : World) :
  files w1 = files w2 ->
  fst (Execution.read_listing directory listing warehouse w1) =
  fst (Execution.read_listing directory listing warehouse w2).
Proof.
  intros Hfs. revert warehouse.
  induction listing as [|file rest IH]; intros wh;
    cbn [Execution.read_listing].
  - reflexivity.
  - destruct (String.eqb _ "jpg"); [|apply IH].
    unfold bind at 1 3, get. cbv beta iota. rewrite Hfs.
    destruct (Os.imread _ (files w2)) as [image|]; [|reflexivity].
    unfold bind.
    rewrite (read_only_run _ w1 (add_faces_read_only _ _ _ _)).
    rewrite (read_only_run _ w2 (add_faces_read_only _ _ _ _)).
    rewrite (add_faces_any_world _ _ _ _ w1 w2).
    destruct (fst (Execution.add_faces _ image (detect_faces image) wh w2));
      [apply IH|reflexivity].
Qed.

(** What [create_wh] returns depends on the files alone. *)
Lemma create_wh_same_files directory (w1 w2 : World) :
  files w1 = files w2 ->
  fst (Execution.create_wh directory w1) = fst (Execution.create_wh directory w2).
Proof.
  intros Hfs. unfold Execution.create_wh, bind, get. cbv beta iota.
  rewrite Hfs. apply read_listing_same_files. assumption.
Qed.

(** A run of [acquire_data] that returns has built both warehouses from the
    directories and has encoded every sample. *)
Lemma acquire_data_ok (w w' : World) :
  Execution.acquire_data w = (Ok tt, w') ->
  exists trn tst,
    fst (Execution.create_wh (trn_dir w) w) = Ok trn /\
    fst (Execution.create_wh (tst_dir w) w) = Ok tst /\
    w' = mkWorld _ (pkg_dir w) (files w) (Execution.encode_faces trn)
                 (Execution.encode_faces tst) (knn w) (trace w).
Proof.
  unfold Execution.acquire_data.
  rewrite (bind_ok _ _ _ _ _ (dataset_run "train" w)).
  rewrite (bind_ok _ _ _ _ _ (dataset_run "test" w)).
  fold (trn_dir w). fold (tst_dir w).
  intros H. apply bind_inv in H.
  destruct H as [(trn & w1 & Htrn & H)|(e & _ & He)]; [|discriminate He].
  pose proof (read_only_create_wh (trn_dir w) w) as Hw1.
  rewrite Htrn in Hw1. simpl in Hw1. subst w1.
  unfold bind at 1, set_trn_wh in H. cbv beta iota in H.
  apply bind_inv in H.
  destruct H as [(tst & w2 & Htst & H)|(e & _ & He)]; [|discriminate He].
  match type of Htst with Execution.create_wh _ ?w0 = _ =>
    pose proof (read_only_create_wh (tst_dir w) w0) as Hw2;
    pose proof (create_wh_same_files (tst_dir w) w0 w eq_refl) as Hsame
  end.
  rewrite Htst in Hw2, Hsame. simpl in Hw2, Hsame. subst w2.
  exists trn, tst. rewrite Htrn. repeat split; auto.
  unfold bind, set_tst_wh, set_trn_wh, get in H. simpl in H.
  inversion H. reflexivity.
Qed.

Lemma pairs_encode_faces (warehouse : Warehouse.t) :
  Execution.pairs (Execution.encode_faces warehouse) =
    Some (map (fun face => (Execution.encode [Face.image face], Face.uid face))
              warehouse).
Proof.
  unfold Execution.encode_faces, Warehouse.get_faces.
  induction warehouse as [|face rest IH]; simpl; [reflexivity|].
  simpl in IH. rewrite IH. reflexivity.
Qed.

(** The two statements that follow every mutation: a run of them that
    returns leaves both warehouses reacquired and the index refitted, with
    the files as they were. *)
Lemma reacquire_then_refit (w w' : World) (b : bool) :
  (emit Ev_acquire_data ;;; Execution.acquire_data ;;; emit Ev_knn_fit ;;;
   Execution.fit_training ;;; ret false) w = (Ok b, w') ->
  b = false /\ reacquired w' /\ refitted w' /\
  files w' = files w /\
  trace w' = trace w ++ [Ev_acquire_data; Ev_knn_fit].
Proof.
  rewrite (bind_ok _ _ _ _ _ (emit_run _ w)).
  intros H. apply bind_inv in H.
  destruct H as [([] & w1 & Hacq & H)|(e & _ & He)]; [|discriminate He].
  apply acquire_data_ok in Hacq. destruct Hacq as (trn & tst & Htrn & Htst & ->).
  rewrite (bind_ok _ _ _ _ _ (emit_run _ _)) in H.
  unfold Execution.fit_training, Execution.knn_fit, bind at 1 2, get in H.
  cbv beta iota in H. cbn [trn_wh logged Warehouse.get_faces] in H.
  rewrite pairs_encode_faces in H. unfold set_knn, ret in H. simpl in H.
  inversion H. subst b. clear H.
  split; [reflexivity|]. split; [|split; [|split]].
  - exists trn, tst. cbn [trn_wh tst_wh]. repeat split.
    + rewrite <- Htrn. apply create_wh_same_files. reflexivity.
    + rewrite <- Htst. apply create_wh_same_files. reflexivity.
  - unfold refitted. cbn [trn_wh knn]. apply pairs_encode_faces.
  - reflexivity.
  - cbn [trace]. rewrite <- app_assoc. reflexivity.
Qed.

Lemma write_run path image (w : World) :
  Execution.write path image w =
    (Ok tt, mkWorld _ (pkg_dir w) (Os.imwrite path image (files w)) (trn_wh w)
                    (tst_wh w) (knn w) (trace w)).
Proof. reflexivity. Qed.

Lemma preserves_remove {B} (f : World -> B) path :
  (forall w fs, f (mkWorld _ (pkg_dir w) fs (trn_wh w) (tst_wh w) (knn w)
                           (trace w)) = f w) ->
  preserves f (Execution.remove path).
Proof.
  intros Hf w. unfold Execution.remove, bind, get. cbv beta iota.
  destruct (Os.remove path (files w)); simpl; auto.
Qed.

(** The removals of the deletion loop, when all of them succeed, are logged
    in the order of the paths. *)
Lemma remove_all_trace paths (w w' : World) :
  for_each paths (fun path => emit (Ev_remove path) ;;; Execution.remove path) w
    = (Ok tt, w') ->
  trace w' = trace w ++ map Ev_remove paths.
Proof.
  revert w. induction paths as [|path rest IH]; intros w H; cbn [for_each map] in H |- *.
  - inversion H. rewrite app_nil_r. reflexivity.
  - apply bind_inv in H.
    destruct H as [([] & w1 & Hbody & H)|(e & _ & He)]; [|discriminate He].
    rewrite (IH _ H).
    rewrite (bind_ok _ _ _ _ _ (emit_run _ w)) in Hbody.
    pose proof (preserves_remove trace path (fun _ _ => eq_refl) (logged w [Ev_remove path])) as Ht.
    rewrite Hbody in Ht. simpl in Ht. rewrite Ht, <- app_assoc. reflexivity.
Qed.

(** The two statements return on directories whose pictures with a face
    are named by an integer. *)
Lemma reacquire_then_refit_returns (w : World) :
  faces_well_named (trn_dir w) (files w) ->
  faces_well_named (tst_dir w) (files w) ->
  exists w',
    (emit Ev_acquire_data ;;; Execution.acquire_data ;;; emit Ev_knn_fit ;;;
     Execution.fit_training ;;; ret false) w = (Ok false, w').
Proof.
  intros Htrn Htst.
  rewrite (bind_ok _ _ _ _ _ (emit_run _ w)).
  unfold Execution.acquire_data.
  set (w1 := logged w [Ev_acquire_data]).
  assert (Hacq : exists trn tst,
             (trn_dir <- Execution.dataset "train" ;;
              tst_dir <- Execution.dataset "test" ;;
              wh <- Execution.create_wh trn_dir ;;
              set_trn_wh wh ;;;
              wh <- Execution.create_wh tst_dir ;;
              set_tst_wh wh ;;;
              w <- get ;;
              set_trn_wh (Execution.encode_faces (trn_wh w)) ;;;
              w <- get ;;
              set_tst_wh (Execution.encode_faces (tst_wh w))) w1 =
             (Ok tt, mkWorld _ (pkg_dir w1) (files w1)
                             (Execution.encode_faces trn)
                             (Execution.encode_faces tst) (knn w1) (trace w1))).
  { eexists. eexists.
    rewrite (bind_ok _ _ _ _ _ (dataset_run "train" w1)).
    rewrite (bind_ok _ _ _ _ _ (dataset_run "test" w1)).
    rewrite (bind_ok _ _ _ _ _ (create_wh_run _ w1 Htrn)).
    unfold bind at 1, set_trn_wh. cbv beta iota.
    erewrite bind_ok by (apply create_wh_run; exact Htst).
    reflexivity. }
  destruct Hacq as (trn & tst & Hacq).
  rewrite (bind_ok _ _ _ _ _ Hacq).
  rewrite (bind_ok _ _ _ _ _ (emit_run _ _)).
  unfold Execution.fit_training, Execution.knn_fit, bind at 1 2, get.
  cbv beta iota. cbn [trn_wh logged Warehouse.get_faces].
  rewrite pairs_encode_faces. eexists. reflexivity.
Qed.

(** One turn of the loop over the bounding boxes. *)
Lemma per_face_cons bbox rest image selected_face selected_uid (w : World) :
  let uid := nearest (knn w) (encode1 (process (crop image bbox))) in
  Execution.per_face (bbox :: rest) image selected_face selected_uid w =
    Execution.per_face rest (Execution.visualize image (Some bbox) uid)
      (Some (crop image bbox)) uid
      (logged w [Ev_crop; Ev_process; Ev_encode; Ev_knn_classify; Ev_visualize]).
Proof.
  cbn [Execution.per_face].
  unfold Execution.index0, Execution.encode, Execution.knn_classify, logged.
  repeat (unfold bind, emit, get, ret;
          cbn [map knn pkg_dir files trn_wh tst_wh trace]).
  rewrite <- !app_assoc. reflexivity.
Qed.


(** C9. After [acquire_data] every sample of both warehouses holds in its
    embedding field the whole sequence [encode([face.image])], a sequence of
    one element, and a fit stores these sequences in the index; [id] and the
    loop over the bounding boxes hand [knn_classify] the first element of
    the encoder's output. *)
Theorem C9_stored_sequence_queried_element :
  forall (w w' : World),
    Execution.acquire_data w = (Ok tt, w') ->
    Forall (fun face =>
              Face.embedding face = Some (Execution.encode [Face.image face]) /\
              Execution.encode [Face.image face] = [encode1 (Face.image face)])
           (trn_wh w' ++ tst_wh w') /\
    (exists w'',
        Execution.fit_training w' = (Ok tt, w'') /\
        knn w'' = map (fun face => ([encode1 (Face.image face)], Face.uid face))
                      (trn_wh w')) /\
    (forall image (w0 : World),
        Execution.id image w0 =
          (Ok (nearest (knn w0) (encode1 (process image))), w0)) /\
    (forall bbox image (w0 : World),
        let uid := nearest (knn w0) (encode1 (process (crop image bbox))) in
        Execution.per_face [bbox] image None (-1) w0 =
          (Ok (Execution.visualize image (Some bbox) uid,
               Some (crop image bbox), uid),
           logged w0 [Ev_crop; Ev_process; Ev_encode; Ev_knn_classify;
                      Ev_visualize])).
Proof.
  intros w w' Hacq.
  apply acquire_data_ok in Hacq. destruct Hacq as (trn & tst & _ & _ & ->).
  cbn [trn_wh tst_wh]. split; [|split; [|split]].
  - apply Forall_app. unfold Execution.encode_faces, Warehouse.get_faces.
    split; apply Forall_forall; intros face Hin; apply in_map_iff in Hin;
      destruct Hin as (f & <- & _); split; reflexivity.
  - eexists. unfold Execution.fit_training, Execution.knn_fit, bind, get.
    cbv beta iota. cbn [trn_wh Warehouse.get_faces].
    rewrite pairs_encode_faces. split; [reflexivity|].
    cbn [knn]. unfold Execution.encode_faces, Warehouse.get_faces.
    rewrite map_map. reflexivity.
  - reflexivity.
  - intros bbox image w0. apply per_face_cons.
Qed.

End Reacquire.


(** ** The session loop *)

Section Session.
Context {C : Collaborators}.

Lemma logged_nil (w : World) : logged w [] = w.
Proof. destruct w. unfold logged. simpl. rewrite app_nil_r. reflexivity. Qed.

(** The loop over the bounding boxes returns, and logs calls only. *)
Lemma per_face_ok bboxes image selected_face selected_uid (w : World) :
  exists annotated face uid events,
    Execution.per_face bboxes image selected_face selected_uid w =
      (Ok (annotated, face, uid), logged w events) /\
    filter is_release events = [].
Proof.
  revert image selected_face selected_uid w.
  induction bboxes as [|bbox rest IH]; intros image sf su w.
  - exists image, sf, su, []. rewrite logged_nil. split; reflexivity.
  - rewrite per_face_cons.
    match goal with |- context [Execution.per_face rest ?i ?f ?u ?w1] =>
      destruct (IH i f u w1) as (annotated & face & uid & events & Hrun & Hquiet)
    end.
    exists annotated, face, uid,
      ([Ev_crop; Ev_process; Ev_encode; Ev_knn_classify; Ev_visualize] ++ events).
    rewrite Hrun, logged_logged. split; [reflexivity|].
    rewrite filter_app, Hquiet. reflexivity.
Qed.

(** The loop over the boxes followed by one more box. *)
Lemma per_face_snoc bboxes bbox image selected_face selected_uid (w : World) :
  exists annotated face uid events,
    Execution.per_face bboxes image selected_face selected_uid w =
      (Ok (annotated, face, uid), logged w events) /\
    let last_uid := nearest (knn w) (encode1 (process (crop annotated bbox))) in
    Execution.per_face (bboxes ++ [bbox]) image selected_face selected_uid w =
      (Ok (Execution.visualize annotated (Some bbox) last_uid,
           Some (crop annotated bbox), last_uid),
       logged w (events ++ [Ev_crop; Ev_process; Ev_encode; Ev_knn_classify;
                            Ev_visualize])).
Proof.
  revert image selected_face selected_uid w.
  induction bboxes as [|b rest IH]; intros image sf su w.
  - exists image, sf, su, []. rewrite logged_nil. split; [reflexivity|].
    cbn [app]. rewrite per_face_cons. reflexivity.
  - cbn [app]. rewrite !per_face_cons.
    match goal with |- context [Execution.per_face rest ?i ?f ?u ?w1] =>
      destruct (IH i f u w1) as (annotated & face & uid & events & Hrun & Hlast)
    end.
    exists annotated, face, uid,
      ([Ev_crop; Ev_process; Ev_encode; Ev_knn_classify; Ev_visualize] ++ events).
    rewrite Hrun, logged_logged. split; [reflexivity|].
    cbn zeta in Hlast |- *. rewrite Hlast, logged_logged, <- app_assoc.
    reflexivity.
Qed.

(** C5. A turn whose frame is absent, or has no rows or no columns, makes no
    call after [get_frame], leaves files, warehouses and index as they are,
    does not raise, and the loop goes on with the next input. *)
Theorem C5_unusable_frame_is_skipped :
  forall (i : Execution.Input) (rest : list Execution.Input) (w : World),
    Execution.frame i = None \/
    (exists image, Execution.frame i = Some image /\
                   (shape0 image = 0%N \/ shape1 image = 0%N)) ->
    Execution.iteration i w = (Ok false, logged w [Ev_get_frame]) /\
    Execution.test (i :: rest) w = Execution.test rest (logged w [Ev_get_frame]).
Proof.
  intros i rest w Hframe.
  assert (Hturn : Execution.iteration i w = (Ok false, logged w [Ev_get_frame])).
  { unfold Execution.iteration.
    rewrite (bind_ok _ _ _ _ _ (emit_run _ w)).
    destruct Hframe as [->|(image & -> & Hzero)]; [reflexivity|].
    destruct Hzero as [->| ->]; cbn [N.ltb N.compare negb orb];
      [reflexivity|].
    rewrite orb_true_r. reflexivity. }
  split; [exact Hturn|].
  cbn [Execution.test]. rewrite (bind_ok _ _ _ _ _ Hturn). reflexivity.
Qed.


(** C7. With no face selected and the selected uid -1, the keys [a] and [d]
    make no call and leave the world as it is.  So a turn with a usable
    frame in which the detector finds no face, and one of these keys, calls
    [get_frame], [detect_faces], [imshow] and [waitKey] and nothing else,
    and returns without stopping the loop. *)
Theorem C7_no_candidate_no_effect :
  forall (image : Image) (w : World),
    Execution.command (Py.ord "a") image None (-1) w = (Ok false, w) /\
    Execution.command (Py.ord "d") image None (-1) w = (Ok false, w) /\
    forall i : Execution.Input,
      Execution.frame i = Some image ->
      usable i = true ->
      detect_faces image = [] ->
      Execution.key i = Py.ord "a" \/ Execution.key i = Py.ord "d" ->
      Execution.iteration i w =
        (Ok false,
         logged w [Ev_get_frame; Ev_detect_faces; Ev_imshow; Ev_waitKey]).
Proof.
  intros image w.
  assert (Ha : forall w0 : World,
             Execution.command (Py.ord "a") image None (-1) w0 = (Ok false, w0))
    by reflexivity.
  assert (Hd : forall w0 : World,
             Execution.command (Py.ord "d") image None (-1) w0 = (Ok false, w0))
    by reflexivity.
  split; [apply Ha|]. split; [apply Hd|].
  intros i Hframe Husable Hnone Hkey.
  unfold usable in Husable. rewrite Hframe in Husable.
  unfold Execution.iteration.
  rewrite (bind_ok _ _ _ _ _ (emit_run _ w)), Hframe.
  apply andb_prop in Husable. destruct Husable as [H0 H1].
  rewrite H0, H1. cbn [negb orb].
  rewrite (bind_ok _ _ _ _ _ (emit_run _ _)), Hnone.
  cbn [Execution.per_face].
  erewrite bind_ok by reflexivity.
  rewrite (bind_ok _ _ _ _ _ (emit_run _ _)).
  rewrite (bind_ok _ _ _ _ _ (emit_run _ _)).
  cbn [fst snd]. rewrite !logged_logged. cbn [app].
  destruct Hkey as [-> | ->]; [apply Ha|apply Hd].
Qed.

End Session.

(** ** Stopping the loop *)

Section Stop.
Context {C : Collaborators}.

Lemma never_stops_false : never_stops (ret false).
Proof. intros w. reflexivity. Qed.

Lemma never_stops_bind {A} (m : M A) (k : A -> M bool) :
  (forall a, never_stops (k a)) -> never_stops (bind m k).
Proof.
  intros Hk w. unfold bind. destruct (m w) as [[a|e] w1]; [apply Hk|reflexivity].
Qed.

Lemma releases_logged (w : World) events :
  releases (logged w events) =
    (releases w + List.length (filter is_release events))%nat.
Proof.
  unfold releases, logged. cbn [trace]. rewrite filter_app, length_app.
  reflexivity.
Qed.

Lemma preserves_releases_emit e :
  is_release e = false -> preserves releases (emit e).
Proof.
  intros He w. rewrite emit_run. cbn [snd]. rewrite releases_logged.
  cbn [filter]. rewrite He. cbn [List.length]. lia.
Qed.

Lemma preserves_trace_releases {A} (m : M A) :
  preserves trace m -> preserves releases m.
Proof. intros H w. unfold releases. rewrite H. reflexivity. Qed.

Lemma preserves_trace_acquire_data : preserves trace Execution.acquire_data.
Proof.
  unfold Execution.acquire_data.
  repeat first
    [ apply read_only_preserves;
      first [apply read_only_dataset | apply read_only_create_wh
            | apply read_only_get]
    | apply preserves_bind; [|intros ?]
    | intros w; reflexivity ].
Qed.

Lemma preserves_trace_fit_training : preserves trace Execution.fit_training.
Proof.
  unfold Execution.fit_training, Execution.knn_fit.
  apply preserves_bind; [apply preserves_get|intros w0].
  destruct (Execution.pairs _); intros w; reflexivity.
Qed.

Lemma preserves_trace_write path image :
  preserves trace (Execution.write path image).
Proof. intros w. reflexivity. Qed.

(** The key 27: [release] is called once, then [destroyAllWindows], and
    [stop] is set. *)
Lemma command_escape image face uid (w : World) :
  Execution.command 27 image face uid w =
    (Ok true, logged w [Ev_release; Ev_destroyAllWindows]).
Proof.
  unfold Execution.command. cbn [Z.eqb Pos.eqb].
  rewrite (bind_ok _ _ _ _ _ (emit_run _ w)).
  rewrite (bind_ok _ _ _ _ _ (emit_run _ _)).
  rewrite logged_logged. reflexivity.
Qed.

(** Any other key: [release] is not called and [stop] is not set. *)
Lemma command_other k image face uid :
  k <> 27 ->
  never_stops (Execution.command k image face uid) /\
  preserves releases (Execution.command k image face uid).
Proof.
  intros Hk. unfold Execution.command.
  replace (k =? 27) with false by (symmetry; apply Z.eqb_neq; assumption).
  destruct (k =? Py.ord "s"); [|destruct (k =? Py.ord "a");
    [destruct face|destruct (k =? Py.ord "d"); [destruct (negb _)|]]];
    (split;
     [ repeat (apply never_stops_bind; intros ?); apply never_stops_false
     | repeat first
         [ apply preserves_releases_emit; reflexivity
         | apply preserves_trace_releases;
           first [ apply preserves_trace_acquire_data
                 | apply preserves_trace_fit_training
                 | apply preserves_trace_write
                 | apply preserves_remove; intros; reflexivity
                 | apply read_only_preserves;
                   first [apply read_only_find_path
                         | apply read_only_find_all_files] ]
         | apply preserves_for_each; intros ?
         | apply preserves_ret
         | apply preserves_bind; [|intros ?] ] ]).
Qed.

(** A turn with a usable frame comes down to the reaction to the key, after
    calls that are not [release]. *)
Lemma iteration_usable (i : Execution.Input) (w : World) :
  usable i = true ->
  exists annotated face uid events,
    filter is_release events = [] /\
    Execution.iteration i w =
      Execution.command (Execution.key i) annotated face uid (logged w events).
Proof.
  unfold usable, Execution.iteration. intros Husable.
  destruct (Execution.frame i) as [image|]; [|discriminate].
  apply andb_prop in Husable. destruct Husable as [H0 H1].
  rewrite (bind_ok _ _ _ _ _ (emit_run _ w)), H0, H1. cbn [negb orb].
  rewrite (bind_ok _ _ _ _ _ (emit_run _ _)).
  match goal with |- context [Execution.per_face ?l ?im ?f ?u] =>
    destruct (per_face_ok l im f u (logged (logged w [Ev_get_frame]) [Ev_detect_faces]))
      as (annotated & face & uid & events & Hrun & Hquiet)
  end.
  exists annotated, face, uid,
    ([Ev_get_frame] ++ [Ev_detect_faces] ++ events ++ [Ev_imshow] ++ [Ev_waitKey]).
  split.
  - cbn [app filter is_release]. rewrite filter_app, Hquiet. reflexivity.
  - rewrite (bind_ok _ _ _ _ _ Hrun).
    rewrite (bind_ok _ _ _ _ _ (emit_run _ _)).
    rewrite (bind_ok _ _ _ _ _ (emit_run _ _)).
    rewrite !logged_logged. reflexivity.
Qed.

Lemma iteration_unusable (i : Execution.Input) (w : World) :
  usable i = false ->
  Execution.iteration i w = (Ok false, logged w [Ev_get_frame]).
Proof.
  unfold usable, Execution.iteration. intros Husable.
  rewrite (bind_ok _ _ _ _ _ (emit_run _ w)).
  destruct (Execution.frame i) as [image|]; [|reflexivity].
  apply andb_false_iff in Husable.
  destruct Husable as [-> | ->]; cbn [negb orb]; [reflexivity|].
  rewrite orb_true_r. reflexivity.
Qed.

(** What a turn does to [stop] and to the number of calls of [release]. *)
Lemma iteration_outcome (i : Execution.Input) (w : World) :
  stops (fst (Execution.iteration i w)) = usable i && (Execution.key i =? 27) /\
  releases (snd (Execution.iteration i w)) =
    (releases w + (if usable i && (Execution.key i =? 27)%Z then 1 else 0))%nat /\
  (usable i && (Execution.key i =? 27) = true ->
   exists events,
     Execution.iteration i w =
       (Ok true, logged w (events ++ [Ev_release; Ev_destroyAllWindows]))).
Proof.
  destruct (usable i) eqn:Husable.
  - destruct (iteration_usable i w Husable)
      as (annotated & face & uid & events & Hquiet & Hrun).
    rewrite Hrun. cbn [andb].
    destruct (Execution.key i =? 27) eqn:Hkey.
    + apply Z.eqb_eq in Hkey. rewrite Hkey, command_escape. cbn [fst snd stops].
      rewrite logged_logged, releases_logged, filter_app, Hquiet.
      split; [reflexivity|]. split; [reflexivity|].
      intros _. exists events. reflexivity.
    + apply Z.eqb_neq in Hkey.
      destruct (command_other (Execution.key i) annotated face uid Hkey)
        as [Hstop Hrel].
      rewrite Hstop, Hrel, releases_logged, Hquiet. cbn [List.length].
      split; [reflexivity|]. split; [lia|discriminate].
  - rewrite (iteration_unusable i w Husable). cbn [fst snd stops andb].
    rewrite releases_logged. cbn [filter is_release List.length].
    split; [reflexivity|]. split; [lia|discriminate].
Qed.


End Stop.

(** ** The session loop on a concrete gallery *)

Section SessionExamples.
#[local] Existing Instance Sample.collaborators.


Lemma C5_witness :
  Execution.iteration (Execution.mkInput None (Py.ord "a")) Sample.started =
    (Ok false, logged Sample.started [Ev_get_frame]) /\
  Execution.iteration (Execution.mkInput (Some Sample.flat) (Py.ord "a")) Sample.started =
    (Ok false, logged Sample.started [Ev_get_frame]).
Proof.
  split.
  - exact (proj1 (C5_unusable_frame_is_skipped
                    (Execution.mkInput None (Py.ord "a")) [] Sample.started
                    (or_introl eq_refl))).
  - exact (proj1 (C5_unusable_frame_is_skipped
                    (Execution.mkInput (Some Sample.flat) (Py.ord "a")) [] Sample.started
                    (or_intror (ex_intro _ Sample.flat
                                  (conj eq_refl (or_introl eq_refl)))))).
Defined.

Lemma C7_witness :
  Execution.iteration (Execution.mkInput (Some Sample.empty_scene) (Py.ord "d"))
    Sample.started =
    (Ok false,
     logged Sample.started
       [Ev_get_frame; Ev_detect_faces; Ev_imshow; Ev_waitKey]).
Proof.
  exact (proj2 (proj2 (C7_no_candidate_no_effect Sample.empty_scene Sample.started))
           (Execution.mkInput (Some Sample.empty_scene) (Py.ord "d"))
           eq_refl eq_refl eq_refl (or_intror eq_refl)).
Defined.


Lemma C9_witness :
  exists w',
    Execution.acquire_data (Sample.fresh Sample.gallery) = (Ok tt, w') /\
    map Face.embedding (trn_wh w') =
      [Some [10%N]; Some [11%N]; Some [12%N]; Some [13%N]; Some [14%N]] /\
    Forall (fun face =>
              Face.embedding face = Some (Execution.encode [Face.image face]) /\
              Execution.encode [Face.image face] = [encode1 (Face.image face)])
           (trn_wh w' ++ tst_wh w').
Proof.
  exists (snd (Execution.acquire_data (Sample.fresh Sample.gallery))).
  split; [vm_compute; reflexivity|]. split; [vm_compute; reflexivity|].
  exact (proj1 (C9_stored_sequence_queried_element
                  (Sample.fresh Sample.gallery)
                  (snd (Execution.acquire_data (Sample.fresh Sample.gallery)))
                  ltac:(vm_compute; reflexivity))).
Defined.

End SessionExamples.

(** ** The names the allocator writes are the names the readers parse *)

Section Names.

(** The value of a decimal numeral read from the left with an accumulator,
    as [Py.digits] does it. *)
Fixpoint horner (acc : Z) (d : Decimal.uint) : Z :=
  match d with
  | Decimal.Nil => acc
  | Decimal.D0 d => horner (10 * acc + 0) d
  | Decimal.D1 d => horner (10 * acc + 1) d
  | Decimal.D2 d => horner (10 * acc + 2) d
  | Decimal.D3 d => horner (10 * acc + 3) d
  | Decimal.D4 d => horner (10 * acc + 4) d
  | Decimal.D5 d => horner (10 * acc + 5) d
  | Decimal.D6 d => horner (10 * acc + 6) d
  | Decimal.D7 d => horner (10 * acc + 7) d
  | Decimal.D8 d => horner (10 * acc + 8) d
  | Decimal.D9 d => horner (10 * acc + 9) d
  end.

Definition numeral (d : Decimal.uint) : list ascii :=
  list_ascii_of_string (NilEmpty.string_of_uint d).

Lemma digits_numeral d acc after rest :
  Py.digits acc after (numeral d ++ rest) =
    match d with
    | Decimal.Nil => Py.digits acc after rest
    | _ => Py.digits (horner acc d) true rest
    end.
Proof.
  revert acc after. unfold numeral.
  induction d; intros acc after;
    cbn [NilEmpty.string_of_uint list_ascii_of_string app horner];
    try reflexivity;
    cbn [Py.digits];
    match goal with |- context [Py.digit ?c] =>
      let v := eval vm_compute in (Py.digit c) in change (Py.digit c) with v
    end; cbv iota; rewrite IHd; destruct d; reflexivity.
Qed.

Lemma horner_pos d (p : positive) :
  horner (Z.pos p) d = Z.pos (Pos.of_uint_acc d p).
Proof.
  revert p. induction d; intros p; cbn [horner Pos.of_uint_acc];
    try reflexivity;
    rewrite <- IHd; f_equal; lia.
Qed.

Lemma horner_zero d : horner 0 d = Z.of_N (Pos.of_uint d).
Proof.
  induction d; cbn [horner Pos.of_uint]; try reflexivity; try assumption;
    match goal with |- horner ?a _ = _ =>
      let v := eval vm_compute in a in change a with v
    end; rewrite horner_pos; reflexivity.
Qed.

(** Characters of numbers: digits and the minus sign. *)
Definition is_digit (c : ascii) : bool :=
  match Py.digit c with
  | Some _ => true
  | None => false
  end.

Definition is_numeric (c : ascii) : bool := is_digit c || Ascii.eqb c "-".

Lemma numeral_digits d : forallb is_digit (numeral d) = true.
Proof. unfold numeral. induction d; simpl; auto. Qed.

Lemma zeros_digits k : forallb is_digit (repeat "0"%char k) = true.
Proof. induction k; simpl; auto. Qed.

Lemma list_ascii_of_string_app a b :
  list_ascii_of_string (a ++ b)%string =
    list_ascii_of_string a ++ list_ascii_of_string b.
Proof. induction a as [|c a IH]; simpl; [reflexivity|]. rewrite IH. reflexivity. Qed.

Lemma numeric_not_space c : is_numeric c = true -> Py.is_space c = false.
Proof.
  destruct c as [[|] [|] [|] [|] [|] [|] [|] [|]]; vm_compute; congruence.
Qed.

Lemma lstrip_numeric l : forallb is_numeric l = true -> Py.lstrip l = l.
Proof.
  destruct l as [|c l]; simpl; [reflexivity|]. intros H.
  apply andb_prop in H. destruct H as [Hc _].
  rewrite (numeric_not_space _ Hc). reflexivity.
Qed.

Lemma strip_numeric l : forallb is_numeric l = true -> Py.strip l = l.
Proof.
  intros H. unfold Py.strip. rewrite (lstrip_numeric _ H).
  rewrite lstrip_numeric; [apply rev_involutive|].
  apply forallb_forall. intros c Hc. apply in_rev in Hc.
  rewrite forallb_forall in H. apply H. assumption.
Qed.

Lemma digits_zeros k after rest :
  Py.digits 0 after (repeat "0"%char k ++ rest) =
    Py.digits 0 (after || (0 <? k)%nat) rest.
Proof.
  revert after. induction k as [|k IH]; intros after; cbn [repeat app].
  - rewrite orb_false_r. reflexivity.
  - cbn [Py.digits]. change (Py.digit "0") with (Some 0). cbv iota.
    change (10 * 0 + 0) with 0. rewrite IH. cbn [orb].
    rewrite orb_true_r. reflexivity.
Qed.

(** Zeros then a numeral read back as the value of the numeral. *)
Lemma digits_padded k d :
  d <> Decimal.Nil ->
  Py.digits 0 false (repeat "0"%char k ++ numeral d) = Some (horner 0 d).
Proof.
  intros Hd. rewrite digits_zeros.
  rewrite <- (app_nil_r (numeral d)), digits_numeral.
  destruct d; [congruence| reflexivity ..].
Qed.

Lemma int_unsigned k d :
  d <> Decimal.Nil ->
  Py.int (string_of_list_ascii (repeat "0"%char k ++ numeral d)) =
    Some (horner 0 d).
Proof.
  intros Hd. unfold Py.int. rewrite list_ascii_of_string_of_list_ascii.
  assert (Hdig : forallb is_digit (repeat "0"%char k ++ numeral d) = true).
  { rewrite forallb_app, zeros_digits, numeral_digits. reflexivity. }
  rewrite strip_numeric.
  2:{ apply forallb_forall. intros c Hc. rewrite forallb_forall in Hdig.
      unfold is_numeric. rewrite (Hdig c Hc). reflexivity. }
  pose proof (digits_padded k d Hd) as Hval.
  destruct (repeat "0"%char k ++ numeral d) as [|c r] eqn:E.
  - discriminate Hval.
  - cbn [forallb] in Hdig. apply andb_prop in Hdig. destruct Hdig as [Hc _].
    assert (Hminus : Ascii.eqb c "-" = false).
    { destruct (Ascii.eqb c "-") eqn:Ec; [|reflexivity].
      apply Ascii.eqb_eq in Ec. subst c. discriminate Hc. }
    assert (Hplus : Ascii.eqb c "+" = false).
    { destruct (Ascii.eqb c "+") eqn:Ec; [|reflexivity].
      apply Ascii.eqb_eq in Ec. subst c. discriminate Hc. }
    rewrite Hminus, Hplus. exact Hval.
Qed.

Lemma int_negative k d :
  d <> Decimal.Nil ->
  Py.int (string_of_list_ascii ("-"%char :: repeat "0"%char k ++ numeral d)) =
    Some (- horner 0 d).
Proof.
  intros Hd. unfold Py.int. rewrite list_ascii_of_string_of_list_ascii.
  rewrite strip_numeric.
  - cbn [Ascii.eqb Bool.eqb]. cbv iota. rewrite (digits_padded k d Hd).
    reflexivity.
  - cbn [forallb]. apply andb_true_intro. split; [reflexivity|].
    apply forallb_forall. intros c Hc.
    assert (Hdig : forallb is_digit (repeat "0"%char k ++ numeral d) = true).
    { rewrite forallb_app, zeros_digits, numeral_digits. reflexivity. }
    rewrite forallb_forall in Hdig. unfold is_numeric.
    rewrite (Hdig c Hc). reflexivity.
Qed.

(** The characters of [str(n)]: a minus sign for a negative number, then
    the numeral of its absolute value. *)
Lemma str_chars n :
  exists d,
    d <> Decimal.Nil /\ horner 0 d = Z.abs n /\
    Py.str n = string_of_list_ascii
                 ((if n <? 0 then ["-"%char] else []) ++ numeral d).
Proof.
  unfold Py.str, numeral. destruct n as [|p|p]; cbn [Z.to_int Z.abs Z.ltb Z.compare].
  - exists (Decimal.D0 Decimal.Nil). repeat split; congruence.
  - exists (Pos.to_uint p). split; [apply DecimalPos.Unsigned.to_uint_nonnil|].
    split.
    + rewrite horner_zero, DecimalPos.Unsigned.of_to. reflexivity.
    + cbn [app NilZero.string_of_int]. rewrite string_of_list_ascii_of_string.
      pose proof (DecimalPos.Unsigned.to_uint_nonnil p) as Hn.
      unfold NilZero.string_of_uint. destruct (Pos.to_uint p); congruence.
  - exists (Pos.to_uint p). split; [apply DecimalPos.Unsigned.to_uint_nonnil|].
    split.
    + rewrite horner_zero, DecimalPos.Unsigned.of_to. reflexivity.
    + cbn [app NilZero.string_of_int string_of_list_ascii].
      rewrite string_of_list_ascii_of_string.
      pose proof (DecimalPos.Unsigned.to_uint_nonnil p) as Hn.
      unfold NilZero.string_of_uint. destruct (Pos.to_uint p); congruence.
Qed.

Lemma string_of_list_ascii_app a b :
  string_of_list_ascii (a ++ b) =
    (string_of_list_ascii a ++ string_of_list_ascii b)%string.
Proof. induction a as [|c a IH]; simpl; [reflexivity|]. rewrite IH. reflexivity. Qed.

(** [zfill] puts zeros in front of a string that starts with a digit, and
    behind the sign of one that starts with a minus sign. *)
Lemma zfill_unsigned width c l :
  is_digit c = true ->
  exists k,
    Py.zfill width (string_of_list_ascii (c :: l)) =
      string_of_list_ascii (repeat "0"%char k ++ c :: l).
Proof.
  intros Hc. unfold Py.zfill.
  destruct (width <=? String.length (string_of_list_ascii (c :: l)))%nat.
  - exists 0%nat. reflexivity.
  - eexists. cbn [string_of_list_ascii].
    assert (Hsign : Ascii.eqb c "+" || Ascii.eqb c "-" = false).
    { destruct (Ascii.eqb c "+") eqn:E1; [apply Ascii.eqb_eq in E1; subst c; discriminate Hc|].
      destruct (Ascii.eqb c "-") eqn:E2; [apply Ascii.eqb_eq in E2; subst c; discriminate Hc|].
      reflexivity. }
    rewrite Hsign. unfold Py.zeros. rewrite string_of_list_ascii_app.
    reflexivity.
Qed.

Lemma zfill_negative width l :
  exists k,
    Py.zfill width (string_of_list_ascii ("-"%char :: l)) =
      string_of_list_ascii ("-"%char :: repeat "0"%char k ++ l).
Proof.
  unfold Py.zfill.
  destruct (width <=? String.length (string_of_list_ascii ("-"%char :: l)))%nat.
  - exists 0%nat. reflexivity.
  - eexists. cbn [string_of_list_ascii Ascii.eqb Bool.eqb orb]. cbv iota.
    unfold Py.zeros. rewrite string_of_list_ascii_app. reflexivity.
Qed.

(** The shape of [str(n).zfill(width)]. *)
Lemma zfill_str_chars width n :
  exists k d,
    d <> Decimal.Nil /\ horner 0 d = Z.abs n /\
    Py.zfill width (Py.str n) =
      string_of_list_ascii
        ((if n <? 0 then ["-"%char] else []) ++ repeat "0"%char k ++ numeral d).
Proof.
  destruct (str_chars n) as (d & Hd & Hval & Hstr). rewrite Hstr.
  destruct (n <? 0); cbn [app].
  - destruct (zfill_negative width (numeral d)) as (k & Hk).
    exists k, d. split; [assumption|]. split; assumption.
  - pose proof (numeral_digits d) as Hdig.
    destruct (numeral d) as [|c l] eqn:E.
    + destruct d; discriminate E || congruence.
    + cbn [forallb] in Hdig. apply andb_prop in Hdig. destruct Hdig as [Hc _].
      destruct (zfill_unsigned width c l Hc) as (k & Hk).
      exists k, d. split; [assumption|]. split; [assumption|].
      rewrite E. assumption.
Qed.

(** Round trip: a number printed and padded is parsed back to itself. *)
Lemma int_zfill_str width n : Py.int (Py.zfill width (Py.str n)) = Some n.
Proof.
  destruct (zfill_str_chars width n) as (k & d & Hd & Hval & ->).
  destruct (n <? 0) eqn:Hn; cbn [app].
  - rewrite (int_negative k d Hd), Hval. f_equal. apply Z.ltb_lt in Hn. lia.
  - rewrite (int_unsigned k d Hd), Hval. f_equal. apply Z.ltb_ge in Hn. lia.
Qed.

Lemma zfill_str_numeric width n :
  forallb is_numeric (list_ascii_of_string (Py.zfill width (Py.str n))) = true.
Proof.
  destruct (zfill_str_chars width n) as (k & d & _ & _ & ->).
  rewrite list_ascii_of_string_of_list_ascii.
  assert (Hdig : forallb is_numeric (repeat "0"%char k ++ numeral d) = true).
  { apply forallb_forall. intros c Hc. unfold is_numeric.
    assert (H : forallb is_digit (repeat "0"%char k ++ numeral d) = true)
      by (rewrite forallb_app, zeros_digits, numeral_digits; reflexivity).
    rewrite forallb_forall in H. rewrite (H c Hc). reflexivity. }
  destruct (n <? 0); cbn [app forallb]; [|exact Hdig].
  rewrite Hdig. reflexivity.
Qed.

(** The file name of the identifier [(uid, sample_index)]. *)
Definition sample_name (uid sample_index : Z) : string :=
  Py.format_jpg (Py.zfill 4 (Py.str uid)) (Py.zfill 4 (Py.str sample_index)).

Lemma numeric_not_dot c : is_numeric c = true -> Ascii.eqb c "." = false.
Proof.
  destruct (Ascii.eqb c ".") eqn:E; [|reflexivity].
  apply Ascii.eqb_eq in E. subst c. discriminate.
Qed.

Lemma numeric_not_slash c : is_numeric c = true -> Ascii.eqb c "/" = false.
Proof.
  destruct (Ascii.eqb c "/") eqn:E; [|reflexivity].
  apply Ascii.eqb_eq in E. subst c. discriminate.
Qed.

Lemma split_nonempty sep s : Py.split sep s <> [].
Proof.
  destruct s as [|c s]; simpl; [discriminate|].
  destruct (Ascii.eqb c sep); [discriminate|].
  destruct (Py.split sep s); discriminate.
Qed.

(** A component made of digits and minus signs is split off at the dot that
    follows it. *)
Lemma split_numeric a b :
  forallb is_numeric (list_ascii_of_string a) = true ->
  Py.split "." (a ++ String "." b) = a :: Py.split "." b.
Proof.
  induction a as [|c a IH]; intros H; cbn [append Py.split list_ascii_of_string forallb] in *.
  - reflexivity.
  - apply andb_prop in H. destruct H as [Hc Ha].
    rewrite (numeric_not_dot _ Hc), (IH Ha). reflexivity.
Qed.

Lemma sample_name_parts uid sample_index :
  Py.split "." (sample_name uid sample_index) =
    [Py.zfill 4 (Py.str uid); Py.zfill 4 (Py.str sample_index); "jpg"].
Proof.
  unfold sample_name, Py.format_jpg.
  change ("." ++ Py.zfill 4 (Py.str sample_index) ++ ".jpg")%string
    with (String "." (Py.zfill 4 (Py.str sample_index) ++ String "." "jpg")).
  rewrite (split_numeric _ _ (zfill_str_numeric 4 uid)).
  rewrite (split_numeric _ _ (zfill_str_numeric 4 sample_index)).
  reflexivity.
Qed.

Lemma has_sep_append a b : Os.has_sep (a ++ b) = Os.has_sep a || Os.has_sep b.
Proof.
  induction a as [|c a IH]; simpl; [reflexivity|]. rewrite IH.
  apply orb_assoc.
Qed.

Lemma numeric_has_no_sep a :
  forallb is_numeric (list_ascii_of_string a) = true -> Os.has_sep a = false.
Proof.
  induction a as [|c a IH]; simpl; [reflexivity|]. intros H.
  apply andb_prop in H. destruct H as [Hc Ha].
  rewrite (numeric_not_slash _ Hc), (IH Ha). reflexivity.
Qed.

(** The name of an identifier is a [jpg] name without separator whose first
    component parses to the uid and whose second component parses to the
    sample index. *)
Lemma sample_name_reads_back uid sample_index :
  is_jpg (sample_name uid sample_index) = true /\
  uid_of (sample_name uid sample_index) = Some uid /\
  Py.int (nth 1 (Py.split "." (sample_name uid sample_index)) EmptyString) =
    Some sample_index /\
  Os.has_sep (sample_name uid sample_index) = false /\
  String.eqb (sample_name uid sample_index) EmptyString = false.
Proof.
  unfold is_jpg, uid_of. rewrite sample_name_parts.
  cbn [Py.last List.last Py.first hd nth].
  rewrite !int_zfill_str. repeat split.
  - unfold sample_name, Py.format_jpg. rewrite !has_sep_append.
    rewrite (numeric_has_no_sep _ (zfill_str_numeric 4 uid)).
    rewrite (numeric_has_no_sep _ (zfill_str_numeric 4 sample_index)).
    reflexivity.
  - destruct (sample_name uid sample_index) eqn:E; [|reflexivity].
    pose proof (sample_name_parts uid sample_index) as Hp. rewrite E in Hp.
    discriminate Hp.
Qed.

Lemma sample_name_inj uid i uid' j :
  sample_name uid i = sample_name uid' j -> uid = uid' /\ i = j.
Proof.
  intros H.
  destruct (sample_name_reads_back uid i) as (_ & Hu & Hi & _).
  destruct (sample_name_reads_back uid' j) as (_ & Hu' & Hj & _).
  rewrite H in Hu, Hi. split; congruence.
Qed.

End Names.




(** ** Reading, writing and removing files *)

Section Storage.

Lemma strip_prefix_app pre name : Os.strip_prefix pre (pre ++ name) = Some name.
Proof.
  induction pre as [|c pre IH]; simpl; [reflexivity|].
  rewrite Ascii.eqb_refl. exact IH.
Qed.

Lemma strip_prefix_has_sep pre s name :
  Os.strip_prefix pre s = Some name -> Os.has_sep pre = true ->
  Os.has_sep s = true.
Proof.
  intros H Hsep. rewrite (strip_prefix_append _ _ _ H), has_sep_append, Hsep.
  reflexivity.
Qed.

Lemma imread_imwrite_same path image (fs : Files) :
  Os.imread path (Os.imwrite path image fs) = Some image.
Proof.
  induction fs as [|[p img] fs IH]; simpl.
  - rewrite String.eqb_refl. reflexivity.
  - destruct (String.eqb p path) eqn:E; simpl; rewrite E; [reflexivity|exact IH].
Qed.

Lemma imread_imwrite_other path other image (fs : Files) :
  other <> path ->
  Os.imread other (Os.imwrite path image fs) = Os.imread other fs.
Proof.
  intros Hne. induction fs as [|[p img] fs IH]; simpl.
  - destruct (String.eqb path other) eqn:E; [|reflexivity].
    apply String.eqb_eq in E. congruence.
  - destruct (String.eqb p path) eqn:E; simpl.
    + apply String.eqb_eq in E. subst p.
      destruct (String.eqb path other) eqn:E'; [|reflexivity].
      apply String.eqb_eq in E'. congruence.
    + rewrite IH. reflexivity.
Qed.

(** Writing a file of a directory: the listing gains the name at its end
    when the file is new, and stays as it is when the file is overwritten. *)
Lemma listdir_imwrite directory name image (fs : Files) :
  Os.has_sep name = false -> String.eqb name EmptyString = false ->
  Os.listdir directory (Os.imwrite (Py.join directory [name]) image fs) =
    match Os.imread (Py.join directory [name]) fs with
    | Some _ => Os.listdir directory fs
    | None => Os.listdir directory fs ++ [name]
    end.
Proof.
  intros Hsep Hne.
  assert (Hnew : Os.listdir directory [(Py.join directory [name], image)] = [name]).
  { cbn [Os.listdir]. rewrite (join_name _ _ Hsep), strip_prefix_app, Hsep, Hne.
    reflexivity. }
  induction fs as [|[p img] fs IH]; cbn [Os.imwrite Os.imread].
  - exact Hnew.
  - destruct (String.eqb p (Py.join directory [name])) eqn:E.
    + reflexivity.
    + cbn [Os.listdir]. rewrite IH.
      destruct (Os.imread (Py.join directory [name]) fs); [reflexivity|].
      destruct (Os.strip_prefix (Py.join directory [EmptyString]) p) as [n|];
        [|reflexivity].
      destruct (negb (Os.has_sep n) && negb (String.eqb n EmptyString));
        reflexivity.
Qed.

(** Writing a file outside a directory leaves its listing as it is. *)
Lemma listdir_imwrite_outside directory path image (fs : Files) :
  Os.strip_prefix (Py.join directory [EmptyString]) path = None ->
  Os.listdir directory (Os.imwrite path image fs) = Os.listdir directory fs.
Proof.
  intros Hout. induction fs as [|[p img] fs IH]; cbn [Os.imwrite Os.listdir].
  - rewrite Hout. reflexivity.
  - destruct (String.eqb p path) eqn:E; cbn [Os.listdir].
    + reflexivity.
    + rewrite IH. reflexivity.
Qed.

Lemma remove_raises path (fs : Files) :
  Os.imread path fs = None -> Os.remove path fs = Raise FileNotFoundError.
Proof.
  induction fs as [|[p img] fs IH]; simpl; [reflexivity|].
  destruct (String.eqb p path); [discriminate|]. intros H. rewrite (IH H).
  reflexivity.
Qed.

Lemma remove_returns path (fs : Files) :
  Os.imread path fs <> None -> exists fs', Os.remove path fs = Ok fs'.
Proof.
  induction fs as [|[p img] fs IH]; simpl; [congruence|].
  destruct (String.eqb p path); [eauto|]. intros H.
  destruct (IH H) as (fs' & ->). eauto.
Qed.

Lemma remove_other path other (fs fs' : Files) :
  Os.remove path fs = Ok fs' -> other <> path ->
  Os.imread other fs' = Os.imread other fs.
Proof.
  revert fs'. induction fs as [|[p img] fs IH]; intros fs' H Hne; simpl in *.
  - discriminate.
  - destruct (String.eqb p path) eqn:E.
    + inversion H. subst fs'. apply String.eqb_eq in E. subst p.
      destruct (String.eqb path other) eqn:E'; [|reflexivity].
      apply String.eqb_eq in E'. congruence.
    + destruct (Os.remove path fs) as [rest|e]; [|discriminate].
      inversion H. subst fs'. simpl. rewrite (IH rest eq_refl Hne). reflexivity.
Qed.

Lemma imread_none_keys path (fs : Files) :
  ~ In path (map fst fs) -> Os.imread path fs = None.
Proof.
  induction fs as [|[p img] fs IH]; simpl; [reflexivity|]. intros H.
  destruct (String.eqb p path) eqn:E.
  - apply String.eqb_eq in E. tauto.
  - apply IH. tauto.
Qed.

Lemma remove_keys path (fs fs' : Files) :
  Os.remove path fs = Ok fs' ->
  forall q, In q (map fst fs') -> In q (map fst fs).
Proof.
  revert fs'. induction fs as [|[p img] fs IH]; intros fs' H q Hq; simpl in *.
  - discriminate.
  - destruct (String.eqb p path).
    + inversion H. subst fs'. right. assumption.
    + destruct (Os.remove path fs) as [rest|e]; [|discriminate].
      inversion H. subst fs'. simpl in Hq. destruct Hq as [Hq|Hq]; [auto|].
      right. apply (IH rest eq_refl q Hq).
Qed.

(** With one file per path, a removed file is gone, and paths stay unique. *)
Lemma remove_same path (fs fs' : Files) :
  NoDup (map fst fs) -> Os.remove path fs = Ok fs' ->
  Os.imread path fs' = None /\ NoDup (map fst fs').
Proof.
  revert fs'. induction fs as [|[p img] fs IH]; intros fs' Hnd H; simpl in *.
  - discriminate.
  - inversion Hnd as [|? ? Hnotin Hnd']. subst.
    destruct (String.eqb p path) eqn:E.
    + inversion H. subst fs'. apply String.eqb_eq in E. subst p.
      split; [apply imread_none_keys|]; assumption.
    + destruct (Os.remove path fs) as [rest|e] eqn:Hrm; [|discriminate].
      inversion H. subst fs'. destruct (IH rest Hnd' eq_refl) as [Hnone Hnd''].
      simpl. rewrite E. split; [assumption|].
      constructor; [|assumption]. intros Hin.
      apply Hnotin. apply (remove_keys _ _ _ Hrm). assumption.
Qed.

End Storage.

(** ** When the readers of the dataset raise *)

Section Errors.
Context {C : Collaborators}.

Lemma read_listing_raises directory listing warehouse (w : World) :
  (forall file, In file listing ->
                Os.imread (Py.join directory [file]) (files w) <> None) ->
  forallb (fun file =>
             implb (is_jpg file && has_face directory (files w) file)
                   (parses file)) listing = false ->
  Execution.read_listing directory listing warehouse w = (Raise ValueError, w).
Proof.
  revert warehouse.
  induction listing as [|file rest IH]; intros wh Hread Hnamed;
    cbn [forallb Execution.read_listing] in *.
  - discriminate.
  - assert (Hrest' : forall f, In f rest ->
              Os.imread (Py.join directory [f]) (files w) <> None).
    { intros f Hf. apply Hread. right. assumption. }
    specialize (Hread file (or_introl eq_refl)).
    unfold has_face, parses, uid_of, is_jpg in *.
    destruct (String.eqb (Py.last (Py.split "." file)) "jpg");
      [|apply (IH _ Hrest' Hnamed)].
    unfold bind at 1, get. cbv beta iota.
    destruct (Os.imread (Py.join directory [file]) (files w)) as [image|];
      [|congruence].
    destruct (Py.int (Py.first (Py.split "." file))) as [label|] eqn:Hint.
    + rewrite (bind_ok _ _ _ _ _ (add_faces_run _ _ _ _ _ _ Hint)).
      rewrite implb_true_r in Hnamed. apply (IH _ Hrest' Hnamed).
    + destruct (detect_faces image) as [|bbox bboxes].
      * cbn [Execution.add_faces]. unfold bind, ret. cbv beta iota.
        apply (IH _ Hrest' Hnamed).
      * cbn [Execution.add_faces]. rewrite Hint. reflexivity.
Qed.


Lemma count_samples_raises uid listing n (w : World) :
  forallb (fun file => implb (is_jpg file) (parses file)) listing = false ->
  Execution.count_samples uid listing n w = (Raise ValueError, w).
Proof.
  revert n. induction listing as [|file rest IH]; intros n H;
    cbn [forallb Execution.count_samples] in *.
  - discriminate.
  - unfold parses, uid_of, is_jpg in *.
    destruct (String.eqb (Py.last (Py.split "." file)) "jpg");
      [|apply (IH _ H)].
    destruct (Py.int (Py.first (Py.split "." file))) as [k|];
      [apply (IH _ H)|reflexivity].
Qed.

(** The two callers of the counting loop. *)
Lemma find_all_files_run uid (w : World) :
  Execution.find_all_files uid w =
    if forallb (fun file => implb (is_jpg file) (parses file)) (trn_listing w)
    then (Ok (map (sample_path (trn_dir w) uid)
                  (Py.range (file_count uid (trn_listing w)))), w)
    else (Raise ValueError, w).
Proof.
  unfold Execution.find_all_files.
  rewrite (bind_ok _ _ _ _ _ (dataset_run "train" w)).
  fold (trn_dir w). unfold bind at 1, get. cbv beta iota.
  fold (trn_listing w).
  destruct (forallb _ (trn_listing w)) eqn:E.
  - rewrite (bind_ok _ _ _ _ _ (count_samples_run uid _ 0 w E)). reflexivity.
  - rewrite (bind_raise _ _ _ _ _ (count_samples_raises uid _ 0 w E)).
    reflexivity.
Qed.

Lemma find_path_run uid (w : World) :
  uid <> -1 ->
  Execution.find_path uid w =
    if forallb (fun file => implb (is_jpg file) (parses file)) (trn_listing w)
    then (Ok (sample_path (trn_dir w) uid (file_count uid (trn_listing w))), w)
    else (Raise ValueError, w).
Proof.
  intros Huid. unfold Execution.find_path.
  rewrite (bind_ok _ _ _ _ _ (dataset_run "train" w)).
  replace (uid =? -1) with false by (symmetry; apply Z.eqb_neq; assumption).
  fold (trn_dir w). unfold bind, get, ret. cbv beta iota.
  fold (trn_listing w).
  destruct (forallb _ (trn_listing w)) eqn:E.
  - rewrite (count_samples_run uid _ 0 w E). reflexivity.
  - rewrite (count_samples_raises uid _ 0 w E). reflexivity.
Qed.

(** X2. [find_all_files], and [find_path] for a uid other than -1, leave the
    state as it is and raise exactly when the training directory holds a
    [jpg] file whose first name component is not an integer, whichever uid
    is asked for; the exception is then [ValueError]. *)
Theorem allocator_raises_iff_badly_named :
  forall (uid : Z) (w : World),
    snd (Execution.find_all_files uid w) = w /\
    snd (Execution.find_path uid w) = w /\
    (fst (Execution.find_all_files uid w) = Raise ValueError <->
     ~ well_named (trn_listing w)) /\
    (forall e, fst (Execution.find_all_files uid w) = Raise e -> e = ValueError) /\
    (uid <> -1 ->
     (fst (Execution.find_path uid w) = Raise ValueError <->
      ~ well_named (trn_listing w)) /\
     (forall e, fst (Execution.find_path uid w) = Raise e -> e = ValueError)).
Proof.
  intros uid w.
  split; [apply read_only_find_all_files|].
  split; [apply read_only_find_path|].
  unfold well_named. rewrite find_all_files_run.
  split; [|split].
  - destruct (forallb _ (trn_listing w)); cbn [fst]; split;
      congruence || discriminate || tauto.
  - intros e. destruct (forallb _ (trn_listing w)); cbn [fst]; congruence.
  - intros Huid. rewrite (find_path_run uid w Huid).
    destruct (forallb _ (trn_listing w)); cbn [fst]; split;
      try (split; congruence || discriminate || tauto);
      intros e; congruence.
Qed.

End Errors.

(** ** Construction, and what the allocator hands out *)

Section Allocation.
Context {C : Collaborators}.

(** The world with other warehouses. *)
Definition with_warehouses (w : World) (trn tst : Warehouse.t) : World :=
  mkWorld _ (pkg_dir w) (files w) trn tst (knn w) (trace w).

(** [acquire_data] in full: it raises what [create_wh] raises, on the
    training directory first, and a failure on the test directory leaves the
    new training warehouse in place, not yet encoded. *)
Lemma acquire_data_run (w : World) :
  Execution.acquire_data w =
    match fst (Execution.create_wh (trn_dir w) w) with
    | Raise e => (Raise e, w)
    | Ok trn =>
        match fst (Execution.create_wh (tst_dir w) w) with
        | Raise e => (Raise e, with_warehouses w trn (tst_wh w))
        | Ok tst =>
            (Ok tt, with_warehouses w (Execution.encode_faces trn)
                                      (Execution.encode_faces tst))
        end
    end.
Proof.
  unfold Execution.acquire_data.
  rewrite (bind_ok _ _ _ _ _ (dataset_run "train" w)).
  rewrite (bind_ok _ _ _ _ _ (dataset_run "test" w)).
  fold (trn_dir w). fold (tst_dir w).
  pose proof (read_only_create_wh (trn_dir w) w) as H1.
  destruct (Execution.create_wh (trn_dir w) w) as [r1 w1] eqn:E1.
  cbn [snd] in H1. subst w1. unfold bind at 1. rewrite E1. cbn [fst].
  destruct r1 as [trn|e]; [|reflexivity].
  unfold bind at 1, set_trn_wh. cbv beta iota.
  match goal with |- bind (Execution.create_wh _) _ ?w1 = _ =>
    pose proof (read_only_create_wh (tst_dir w) w1) as H2;
    pose proof (create_wh_same_files (tst_dir w) w1 w eq_refl) as Hsame;
    destruct (Execution.create_wh (tst_dir w) w1) as [r2 w2] eqn:E2
  end.
  cbn [snd fst] in H2, Hsame. subst w2. unfold bind at 1. rewrite E2.
  rewrite <- Hsame. destruct r2 as [tst|e]; reflexivity.
Qed.

Lemma create_wh_outcome directory (w : World) :
  faces_well_named directory (files w) \/
  (~ faces_well_named directory (files w) /\
   Execution.create_wh directory w = (Raise ValueError, w)).
Proof.
  unfold faces_well_named.
  destruct (forallb _ (Os.listdir directory (files w))) eqn:E;
    [left; reflexivity|].
  right. split; [discriminate|].
  unfold Execution.create_wh, bind at 1, get. cbv beta iota.
  apply read_listing_raises; [|exact E].
  intros file Hin. apply imread_listdir. assumption.
Qed.


End Allocation.

(** ** The paths of identifiers *)

Section Paths.
Context {C : Collaborators}.

Lemma append_inv_head (a b c : string) : (a ++ b)%string = (a ++ c)%string -> b = c.
Proof. induction a as [|x a IH]; simpl; intros H; [assumption|]. inversion H. auto. Qed.

Lemma sample_path_join directory uid i :
  sample_path directory uid i = Py.join directory [sample_name uid i].
Proof. reflexivity. Qed.

(** Different identifiers have different paths in a directory. *)
Lemma sample_path_inj directory uid i uid' j :
  sample_path directory uid i = sample_path directory uid' j ->
  uid = uid' /\ i = j.
Proof.
  rewrite !sample_path_join.
  destruct (sample_name_reads_back uid i) as (_ & _ & _ & Hs & _).
  destruct (sample_name_reads_back uid' j) as (_ & _ & _ & Hs' & _).
  rewrite (join_name _ _ Hs), (join_name _ _ Hs'). intros H.
  apply append_inv_head in H. apply sample_name_inj. assumption.
Qed.

(** A file that can be read at the path of a name of the directory is
    listed under that name. *)
Lemma listed_if_read directory name (fs : Files) :
  Os.has_sep name = false -> String.eqb name EmptyString = false ->
  Os.imread (Py.join directory [name]) fs <> None ->
  In name (Os.listdir directory fs).
Proof.
  intros Hsep Hne. induction fs as [|[p img] fs IH]; cbn [Os.imread Os.listdir].
  - congruence.
  - destruct (String.eqb p (Py.join directory [name])) eqn:E.
    + intros _. apply String.eqb_eq in E. subst p.
      rewrite (join_name _ _ Hsep), strip_prefix_app, Hsep, Hne. left.
      reflexivity.
    + intros H. specialize (IH H).
      destruct (Os.strip_prefix (Py.join directory [EmptyString]) p) as [n|];
        [|assumption].
      destruct (negb (Os.has_sep n) && negb (String.eqb n EmptyString));
        [right|]; assumption.
Qed.

Lemma NoDup_map_injective {A B} (f : A -> B) (l : list A) :
  (forall a b, f a = f b -> a = b) -> NoDup l -> NoDup (map f l).
Proof.
  intros Hinj Hnd. induction Hnd as [|a l Hnotin Hnd IH]; simpl; constructor.
  - intros Hin. apply in_map_iff in Hin. destruct Hin as (b & Hb & Hin).
    apply Hinj in Hb. subst b. contradiction.
  - assumption.
Qed.

Lemma range_In n i : In i (Py.range n) <-> 0 <= i < n.
Proof.
  unfold Py.range. rewrite in_map_iff. split.
  - intros (k & <- & Hk). apply in_seq in Hk. lia.
  - intros H. exists (Z.to_nat i). split; [lia|]. apply in_seq. lia.
Qed.

Lemma range_NoDup n : NoDup (Py.range n).
Proof.
  unfold Py.range. apply NoDup_map_injective; [|apply seq_NoDup].
  intros a b H. lia.
Qed.

Lemma range_length n : List.length (Py.range n) = Z.to_nat n.
Proof. unfold Py.range. rewrite length_map, length_seq. reflexivity. Qed.


(** X5. The paths [find_all_files] returns are pairwise different, as many
    as there are [jpg] files of that uid in the training directory, and each
    is the path of a [jpg] name of the training directory whose first
    component parses to that uid and whose second component parses to an
    index below that number. *)
Theorem enumerated_paths_are_distinct_names_of_the_uid :
  forall (uid : Z) (w w' : World) (paths : list string),
    Execution.find_all_files uid w = (Ok paths, w') ->
    NoDup paths /\
    List.length paths = Z.to_nat (file_count uid (trn_listing w)) /\
    forall path,
      In path paths <->
      exists i,
        0 <= i < file_count uid (trn_listing w) /\
        path = Py.join (trn_dir w) [sample_name uid i] /\
        is_jpg (sample_name uid i) = true /\
        uid_of (sample_name uid i) = Some uid /\
        Py.int (nth 1 (Py.split "." (sample_name uid i)) EmptyString) = Some i.
Proof.
  intros uid w w' paths Hrun. rewrite find_all_files_run in Hrun.
  destruct (forallb _ (trn_listing w)); [|discriminate].
  inversion Hrun. subst w'. clear Hrun.
  split; [|split].
  - apply NoDup_map_injective; [|apply range_NoDup].
    intros i j H. apply sample_path_inj in H. tauto.
  - rewrite length_map. apply range_length.
  - intros path. rewrite in_map_iff. split.
    + intros (i & <- & Hi). apply range_In in Hi. exists i.
      destruct (sample_name_reads_back uid i) as (Hjpg & Hu & Hidx & _).
      rewrite sample_path_join. repeat split; tauto || assumption.
    + intros (i & Hi & -> & _). exists i. split; [reflexivity|].
      apply range_In. assumption.
Qed.

End Paths.

Section PathsExamples.
#[local] Existing Instance Sample.collaborators.


Lemma enumerated_paths_witness :
  NoDup ["/pkg/dataset/train/0001.0000.jpg";
         "/pkg/dataset/train/0001.0001.jpg";
         "/pkg/dataset/train/0001.0002.jpg"] /\
  file_count 1 (trn_listing Sample.started) = 3.
Proof.
  assert (Hrun : Execution.find_all_files 1 Sample.started =
                 (Ok ["/pkg/dataset/train/0001.0000.jpg";
                      "/pkg/dataset/train/0001.0001.jpg";
                      "/pkg/dataset/train/0001.0002.jpg"], Sample.started))
    by (vm_compute; reflexivity).
  destruct (enumerated_paths_are_distinct_names_of_the_uid _ _ _ _ Hrun)
    as (Hnd & _ & _).
  split; [exact Hnd|reflexivity].
Defined.

End PathsExamples.

(** ** What an enrollment does *)

Section Enrollment.
Context {C : Collaborators}.

(** The world with other files, and the index a fit makes of a warehouse
    whose samples are encoded. *)
Definition with_files (w : World) (fs : Files) : World :=
  mkWorld _ (pkg_dir w) fs (trn_wh w) (tst_wh w) (knn w) (trace w).

Definition index_of (warehouse : Warehouse.t) : list (list Embedding * Z) :=
  map (fun face => (Execution.encode [Face.image face], Face.uid face)) warehouse.

(** The two statements after a mutation, when they return: the world they
    leave. *)
Lemma reacquire_then_refit_world (w w' : World) (b : bool) :
  (emit Ev_acquire_data ;;; Execution.acquire_data ;;; emit Ev_knn_fit ;;;
   Execution.fit_training ;;; ret false) w = (Ok b, w') ->
  b = false /\
  exists trn tst,
    fst (Execution.create_wh (trn_dir w) w) = Ok trn /\
    fst (Execution.create_wh (tst_dir w) w) = Ok tst /\
    w' = mkWorld _ (pkg_dir w) (files w) (Execution.encode_faces trn)
                 (Execution.encode_faces tst) (index_of trn)
                 (trace w ++ [Ev_acquire_data; Ev_knn_fit]).
Proof.
  rewrite (bind_ok _ _ _ _ _ (emit_run _ w)).
  intros H. apply bind_inv in H.
  destruct H as [([] & w1 & Hacq & H)|(e & _ & He)]; [|discriminate He].
  apply acquire_data_ok in Hacq. destruct Hacq as (trn & tst & Htrn & Htst & ->).
  rewrite (bind_ok _ _ _ _ _ (emit_run _ _)) in H.
  unfold Execution.fit_training, Execution.knn_fit, bind at 1 2, get in H.
  cbv beta iota in H. cbn [trn_wh logged Warehouse.get_faces] in H.
  rewrite pairs_encode_faces in H. unfold set_knn, ret in H. simpl in H.
  inversion H. subst b. clear H. split; [reflexivity|].
  exists trn, tst. split; [|split].
  - rewrite <- Htrn. apply create_wh_same_files. reflexivity.
  - rewrite <- Htst. apply create_wh_same_files. reflexivity.
  - unfold index_of. rewrite <- app_assoc. reflexivity.
Qed.

(** What [create_wh] returns, when it returns. *)
Lemma create_wh_ok directory (w : World) warehouse :
  fst (Execution.create_wh directory w) = Ok warehouse ->
  warehouse = flat_map (samples_of_file directory (files w))
                       (Os.listdir directory (files w)).
Proof.
  destruct (create_wh_outcome directory w) as [Hnamed|[_ Hraise]].
  - rewrite (create_wh_run _ _ Hnamed). cbn [fst]. congruence.
  - rewrite Hraise. discriminate.
Qed.

(** The path [find_path] returns, when it returns. *)
Lemma find_path_ok uid (w w' : World) path :
  Execution.find_path uid w = (Ok path, w') ->
  w' = w /\
  ((uid = -1 /\ path = sample_path (trn_dir w) (next_free_uid (person_uids w) 0) 0) \/
   (uid <> -1 /\ well_named (trn_listing w) /\
    path = sample_path (trn_dir w) uid (file_count uid (trn_listing w)))).
Proof.
  intros Hrun.
  pose proof (read_only_find_path uid w) as Hw. rewrite Hrun in Hw.
  cbn [snd] in Hw. split; [assumption|].
  destruct (Z.eq_dec uid (-1)) as [->|Huid].
  - left. split; [reflexivity|].
    assert (H : Execution.find_path (-1) w =
                (Ok (sample_path (trn_dir w)
                       (next_free_uid (person_uids w) 0) 0), w))
      by reflexivity.
    rewrite H in Hrun. congruence.
  - right. split; [assumption|]. rewrite (find_path_run uid w Huid) in Hrun.
    unfold well_named.
    destruct (forallb _ (trn_listing w)); [|discriminate].
    split; congruence.
Qed.

(** [find_path] reads the package directory, the files and the training
    warehouse only. *)
Lemma find_path_logged uid (w : World) events :
  Execution.find_path uid (logged w events) =
    (fst (Execution.find_path uid w), logged w events).
Proof.
  rewrite (read_only_run _ (logged w events) (read_only_find_path uid)).
  f_equal.
  destruct (Z.eq_dec uid (-1)) as [->|Huid]; [reflexivity|].
  rewrite (find_path_run uid (logged w events) Huid), (find_path_run uid w Huid).
  change (trn_listing (logged w events)) with (trn_listing w).
  change (trn_dir (logged w events)) with (trn_dir w).
  destruct (forallb _ (trn_listing w)); reflexivity.
Qed.

(** The key [a] with a face selected, when the turn returns: the path that
    was allocated and the world that is left. *)
Lemma enroll_ok image face uid (w w' : World) (b : bool) :
  Execution.command (Py.ord "a") image (Some face) uid w = (Ok b, w') ->
  exists path trn tst,
    Execution.find_path uid w = (Ok path, w) /\
    let fs' := Os.imwrite path face (files w) in
    fst (Execution.create_wh (trn_dir w) (with_files w fs')) = Ok trn /\
    fst (Execution.create_wh (tst_dir w) (with_files w fs')) = Ok tst /\
    w' = mkWorld _ (pkg_dir w) fs' (Execution.encode_faces trn)
                 (Execution.encode_faces tst) (index_of trn)
                 (trace w ++ [Ev_find_path; Ev_imwrite path;
                              Ev_acquire_data; Ev_knn_fit]).
Proof.
  intros H. unfold Execution.command in H.
  change (Py.ord "a" =? 27) with false in H.
  change (Py.ord "a" =? Py.ord "s") with false in H.
  change (Py.ord "a" =? Py.ord "a") with true in H.
  cbv iota in H.
  rewrite (bind_ok _ _ _ _ _ (emit_run _ w)) in H.
  apply bind_inv in H.
  destruct H as [(path & w1 & Hpath & H)|(e & _ & He)]; [|discriminate He].
  rewrite find_path_logged in Hpath. inversion Hpath as [[Hfst Hw1]].
  clear Hpath. subst w1.
  rewrite (bind_ok _ _ _ _ _ (emit_run _ _)) in H.
  rewrite (bind_ok _ _ _ _ _ (write_run _ _ _)) in H.
  apply reacquire_then_refit_world in H.
  destruct H as (_ & trn & tst & Htrn & Htst & ->).
  exists path, trn, tst. split; [|split; [|split]].
  - rewrite (read_only_run _ w (read_only_find_path uid)), Hfst. reflexivity.
  - rewrite <- Htrn. apply create_wh_same_files. reflexivity.
  - rewrite <- Htst. apply create_wh_same_files. reflexivity.
  - cbn [pkg_dir files trace logged]. rewrite <- !app_assoc. reflexivity.
Qed.


Lemma file_count_app uid l1 l2 :
  file_count uid (l1 ++ l2) = file_count uid l1 + file_count uid l2.
Proof. unfold file_count. rewrite filter_app, length_app. lia. Qed.


End Enrollment.

Section EnrollmentExamples.
#[local] Existing Instance Sample.collaborators.



End EnrollmentExamples.


(** ** What a deletion does *)

Section Deletion.
Context {C : Collaborators}.

(** The body of the deletion loop. *)
Definition remove_logged (path : string) : M unit :=
  emit (Ev_remove path) ;;; Execution.remove path.

Lemma remove_logged_run path (w : World) :
  remove_logged path w =
    match Os.remove path (files w) with
    | Ok fs => (Ok tt, with_files (logged w [Ev_remove path]) fs)
    | Raise e => (Raise e, logged w [Ev_remove path])
    end.
Proof.
  unfold remove_logged. rewrite (bind_ok _ _ _ _ _ (emit_run _ w)).
  unfold Execution.remove, bind, get. cbv beta iota. cbn [files logged].
  destruct (Os.remove path (files w)); reflexivity.
Qed.

(** Whatever its outcome, the deletion loop leaves the package directory,
    the warehouses and the index as they are and logs removals only,
    those of the first paths. *)
Lemma remove_loop_frame paths (w : World) :
  let w' := snd (for_each paths remove_logged w) in
  pkg_dir w' = pkg_dir w /\ trn_wh w' = trn_wh w /\ tst_wh w' = tst_wh w /\
  knn w' = knn w /\
  exists k, trace w' = trace w ++ map Ev_remove (firstn k paths).
Proof.
  revert w. induction paths as [|path rest IH]; intros w; cbn [for_each].
  - cbn. repeat split; try reflexivity. exists 0%nat. cbn. rewrite app_nil_r.
    reflexivity.
  - unfold bind. rewrite remove_logged_run.
    destruct (Os.remove path (files w)) as [fs|e].
    + specialize (IH (with_files (logged w [Ev_remove path]) fs)).
      cbv zeta in IH. destruct IH as (H1 & H2 & H3 & H4 & k & H5).
      repeat split; try assumption.
      exists (S k). rewrite H5. cbn [trace with_files logged firstn map].
      rewrite <- app_assoc. reflexivity.
    + cbn [snd]. repeat split; try reflexivity.
      exists 1%nat. destruct rest; reflexivity.
Qed.

(** The deletion loop, when it returns: every path was there, all removals
    are logged, the other files are untouched and, with one file per path,
    the files at the paths are gone. *)
Lemma remove_loop_ok paths (w w' : World) :
  for_each paths remove_logged w = (Ok tt, w') ->
  trace w' = trace w ++ map Ev_remove paths /\
  (forall path, In path paths -> Os.imread path (files w) <> None) /\
  (forall other, ~ In other paths ->
                 Os.imread other (files w') = Os.imread other (files w)) /\
  (NoDup (map fst (files w)) ->
   NoDup (map fst (files w')) /\
   forall path, In path paths -> Os.imread path (files w') = None).
Proof.
  revert w. induction paths as [|path rest IH]; intros w H; cbn [for_each] in H.
  - inversion H. subst w'. cbn [map In]. rewrite app_nil_r.
    repeat split; try tauto.
  - apply bind_inv in H.
    destruct H as [([] & w1 & Hbody & H)|(e & _ & He)]; [|discriminate He].
    rewrite remove_logged_run in Hbody.
    destruct (Os.remove path (files w)) as [fs|e] eqn:Hrm; [|discriminate].
    inversion Hbody. subst w1. clear Hbody.
    destruct (IH _ H) as (Htrace & Hthere & Hother & Hgone).
    cbn [files with_files trace logged] in *.
    assert (Hpath : Os.imread path (files w) <> None).
    { intros Hnone. rewrite (remove_raises _ _ Hnone) in Hrm. discriminate. }
    split; [|split; [|split]].
    + rewrite Htrace. cbn [map]. rewrite <- app_assoc. reflexivity.
    + intros p [<-|Hin]; [assumption|].
      destruct (string_dec p path) as [->|Hne]; [assumption|].
      rewrite <- (remove_other _ _ _ _ Hrm Hne). apply Hthere. assumption.
    + intros other Hnot. rewrite Hother by (cbn [In] in Hnot; tauto).
      apply (remove_other _ _ _ _ Hrm). cbn [In] in Hnot. intros ->. tauto.
    + intros Hnd. destruct (remove_same _ _ _ Hnd Hrm) as [Hnone Hnd1].
      destruct (Hgone Hnd1) as [Hnd' Hrest]. split; [assumption|].
      intros p [<-|Hin]; [|apply Hrest; assumption].
      destruct (in_dec string_dec path rest) as [Hin|Hnot];
        [apply Hrest; assumption|].
      rewrite (Hother _ Hnot). assumption.
Qed.

(** The deletion loop raises [FileNotFoundError] when there is no file at
    one of the paths. *)
Lemma remove_loop_raises paths (w : World) :
  (exists path, In path paths /\ Os.imread path (files w) = None) ->
  fst (for_each paths remove_logged w) = Raise FileNotFoundError.
Proof.
  revert w. induction paths as [|path rest IH]; intros w (p & Hin & Hnone);
    cbn [for_each In] in *; [tauto|].
  unfold bind. rewrite remove_logged_run.
  destruct (Os.remove path (files w)) as [fs|e] eqn:Hrm.
  - apply IH. cbn [files with_files].
    destruct Hin as [<-|Hin].
    + rewrite (remove_raises _ _ Hnone) in Hrm. discriminate.
    + exists p. split; [assumption|].
      destruct (string_dec p path) as [->|Hne].
      * rewrite (remove_raises _ _ Hnone) in Hrm. discriminate.
      * rewrite (remove_other _ _ _ _ Hrm Hne). assumption.
  - cbn [fst]. f_equal.
    destruct (Os.imread path (files w)) eqn:Hread.
    + destruct (remove_returns path (files w)) as (fs' & Hok); [congruence|].
      rewrite Hok in Hrm. discriminate.
    + rewrite (remove_raises _ _ Hread) in Hrm. congruence.
Qed.

Lemma find_all_files_logged uid (w : World) events :
  Execution.find_all_files uid (logged w events) =
    (fst (Execution.find_all_files uid w), logged w events).
Proof.
  rewrite !find_all_files_run.
  change (trn_listing (logged w events)) with (trn_listing w).
  change (trn_dir (logged w events)) with (trn_dir w).
  destruct (forallb _ (trn_listing w)); reflexivity.
Qed.

(** The key [d] with a selected uid other than -1, up to the two statements
    that follow the removals. *)
Lemma delete_run image face uid (w : World) :
  uid <> -1 ->
  Execution.command (Py.ord "d") image face uid w =
    match fst (Execution.find_all_files uid w) with
    | Raise e => (Raise e, logged w [Ev_find_all_files])
    | Ok paths =>
        (for_each paths remove_logged ;;;
         emit Ev_acquire_data ;;; Execution.acquire_data ;;;
         emit Ev_knn_fit ;;; Execution.fit_training ;;; ret false)
          (logged w [Ev_find_all_files])
    end.
Proof.
  intros Huid. unfold Execution.command.
  change (Py.ord "d" =? 27) with false.
  change (Py.ord "d" =? Py.ord "s") with false.
  change (Py.ord "d" =? Py.ord "a") with false.
  change (Py.ord "d" =? Py.ord "d") with true.
  cbv iota.
  replace (uid =? -1) with false by (symmetry; apply Z.eqb_neq; assumption).
  cbn [negb].
  rewrite (bind_ok _ _ _ _ _ (emit_run _ w)).
  unfold bind at 1. rewrite find_all_files_logged.
  destruct (fst (Execution.find_all_files uid w)); reflexivity.
Qed.

(** The key [d] with a selected uid other than -1, when the turn returns. *)
Lemma delete_ok image face uid (w w' : World) (b : bool) :
  uid <> -1 ->
  Execution.command (Py.ord "d") image face uid w = (Ok b, w') ->
  exists paths w1 trn tst,
    Execution.find_all_files uid w = (Ok paths, w) /\
    for_each paths remove_logged (logged w [Ev_find_all_files]) = (Ok tt, w1) /\
    fst (Execution.create_wh (trn_dir w) w1) = Ok trn /\
    fst (Execution.create_wh (tst_dir w) w1) = Ok tst /\
    w' = mkWorld _ (pkg_dir w) (files w1) (Execution.encode_faces trn)
                 (Execution.encode_faces tst) (index_of trn)
                 (trace w1 ++ [Ev_acquire_data; Ev_knn_fit]).
Proof.
  intros Huid H. rewrite (delete_run _ _ _ _ Huid) in H.
  destruct (fst (Execution.find_all_files uid w)) as [paths|e] eqn:Hpaths;
    [|discriminate].
  apply bind_inv in H.
  destruct H as [([] & w1 & Hloop & H)|(e & _ & He)]; [|discriminate He].
  apply reacquire_then_refit_world in H.
  destruct H as (_ & trn & tst & Htrn & Htst & ->).
  destruct (remove_loop_frame paths (logged w [Ev_find_all_files]))
    as (Hpkg & _).
  rewrite Hloop in Hpkg. cbn [snd pkg_dir logged] in Hpkg.
  exists paths, w1, trn, tst.
  split; [|split; [assumption|split; [|split]]].
  - rewrite (read_only_run _ w (read_only_find_all_files uid)), Hpaths.
    reflexivity.
  - rewrite <- Htrn. unfold trn_dir. rewrite Hpkg. reflexivity.
  - rewrite <- Htst. unfold tst_dir. rewrite Hpkg. reflexivity.
  - rewrite Hpkg. reflexivity.
Qed.

(** X8. A turn with the key [d] and a selected uid other than -1 returns
    only if there was a file at every path [find_all_files] enumerated; it
    then leaves every file at another path as it was and, when every path
    holds one file, no file at the enumerated paths. *)
Theorem delete_removes_the_enumerated_files_only :
  forall (image : Image) (face : option Image) (uid : Z) (w w' : World)
         (b : bool),
    uid <> -1 ->
    Execution.command (Py.ord "d") image face uid w = (Ok b, w') ->
    exists paths,
      Execution.find_all_files uid w = (Ok paths, w) /\
      (forall path, In path paths -> Os.imread path (files w) <> None) /\
      (forall other, ~ In other paths ->
                     Os.imread other (files w') = Os.imread other (files w)) /\
      (NoDup (map fst (files w)) ->
       forall path, In path paths -> Os.imread path (files w') = None).
Proof.
  intros image face uid w w' b Huid Hrun.
  destruct (delete_ok _ _ _ _ _ _ Huid Hrun)
    as (paths & w1 & trn & tst & Hpaths & Hloop & _ & _ & ->).
  destruct (remove_loop_ok _ _ _ Hloop) as (_ & Hthere & Hother & Hgone).
  exists paths. cbn [files logged] in *.
  split; [assumption|]. split; [assumption|]. split; [assumption|].
  intros Hnd. apply (Hgone Hnd).
Qed.

(** X9. With a selected uid other than -1, when [find_all_files] returns
    paths and there is no file at one of them, which happens when the
    indices of the uid are not contiguous from 0, the key [d] raises
    [FileNotFoundError]: neither [acquire_data] nor [knn_fit] is called, the
    warehouses and the index stay as they were, and only removals of the
    first paths have been made. *)
Theorem delete_with_a_missing_file_raises :
  forall (image : Image) (face : option Image) (uid : Z) (w : World)
         (paths : list string),
    uid <> -1 ->
    Execution.find_all_files uid w = (Ok paths, w) ->
    (exists path, In path paths /\ Os.imread path (files w) = None) ->
    exists w' k,
      Execution.command (Py.ord "d") image face uid w =
        (Raise FileNotFoundError, w') /\
      trn_wh w' = trn_wh w /\ tst_wh w' = tst_wh w /\ knn w' = knn w /\
      trace w' = trace w ++ Ev_find_all_files :: map Ev_remove (firstn k paths).
Proof.
  intros image face uid w paths Huid Hpaths Hmissing.
  rewrite (delete_run _ _ _ _ Huid), Hpaths. cbn [fst].
  pose proof (remove_loop_raises paths (logged w [Ev_find_all_files]) Hmissing)
    as Hraise.
  destruct (remove_loop_frame paths (logged w [Ev_find_all_files]))
    as (_ & Htrn & Htst & Hknn & k & Htrace).
  destruct (for_each paths remove_logged (logged w [Ev_find_all_files]))
    as [r w1] eqn:Hloop.
  cbn [fst snd] in *. subst r.
  exists w1, k. rewrite (bind_raise _ _ _ _ _ Hloop).
  cbn [trn_wh tst_wh knn trace logged] in *.
  repeat split; try assumption.
  rewrite Htrace, <- app_assoc. reflexivity.
Qed.

End Deletion.

Section DeletionExamples.
#[local] Existing Instance Sample.collaborators.

(** A training directory in which the samples of uid 1 start at index 1. *)
Definition gapped : Files :=
  [ ("/pkg/dataset/train/0001.0001.jpg", Sample.picture [11%N]);
    ("/pkg/dataset/train/0001.0002.jpg", Sample.picture [12%N]) ].

Definition started_gapped : World := snd (Execution.init "/pkg" gapped).

Lemma delete_removes_witness :
  map fst
    (files (snd (Execution.command (Py.ord "d") Sample.known None 1
                   Sample.started))) =
    ["/pkg/dataset/train/0000.0000.jpg"; "/pkg/dataset/train/0003.0000.jpg";
     "/pkg/dataset/train/notes.txt"; "/pkg/dataset/test/0001.0000.jpg"] /\
  Os.imread "/pkg/dataset/train/0003.0000.jpg"
    (files (snd (Execution.command (Py.ord "d") Sample.known None 1
                   Sample.started))) =
    Os.imread "/pkg/dataset/train/0003.0000.jpg" (files Sample.started).
Proof.
  assert (Hrun :
            Execution.command (Py.ord "d") Sample.known None 1 Sample.started =
            (Ok false,
             snd (Execution.command (Py.ord "d") Sample.known None 1
                    Sample.started)))
    by (vm_compute; reflexivity).
  assert (Huid : 1 <> -1) by lia.
  destruct (delete_removes_the_enumerated_files_only _ _ _ _ _ _ Huid Hrun)
    as (paths & Hpaths & _ & Hother & _).
  split; [vm_compute; reflexivity|].
  apply Hother.
  assert (Hval : Execution.find_all_files 1 Sample.started =
                 (Ok ["/pkg/dataset/train/0001.0000.jpg";
                      "/pkg/dataset/train/0001.0001.jpg";
                      "/pkg/dataset/train/0001.0002.jpg"], Sample.started))
    by (vm_compute; reflexivity).
  rewrite Hval in Hpaths. inversion Hpaths. subst paths.
  cbn [In]. intros [H|[H|[H|[]]]]; discriminate H.
Defined.

Lemma delete_with_a_missing_file_witness :
  exists w',
    Execution.command (Py.ord "d") Sample.known None 1 started_gapped =
      (Raise FileNotFoundError, w') /\
    knn w' = knn started_gapped.
Proof.
  assert (Huid : 1 <> -1) by lia.
  assert (Hpaths : Execution.find_all_files 1 started_gapped =
                   (Ok ["/pkg/dataset/train/0001.0000.jpg";
                        "/pkg/dataset/train/0001.0001.jpg"], started_gapped))
    by (vm_compute; reflexivity).
  assert (Hmissing : exists path,
             In path ["/pkg/dataset/train/0001.0000.jpg";
                      "/pkg/dataset/train/0001.0001.jpg"] /\
             Os.imread path (files started_gapped) = None).
  { exists "/pkg/dataset/train/0001.0000.jpg". split; [left; reflexivity|].
    vm_compute. reflexivity. }
  destruct (delete_with_a_missing_file_raises Sample.known None 1
              started_gapped _ Huid Hpaths Hmissing)
    as (w' & k & Hrun & _ & _ & Hknn & _).
  exists w'. split; assumption.
Defined.

End DeletionExamples.


(** ** A deletion that returns clears the identity *)

Section DeletionCompleteness.
Context {C : Collaborators}.

Lemma listdir_valid directory (fs : Files) name :
  In name (Os.listdir directory fs) ->
  Os.has_sep name = false /\ String.eqb name EmptyString = false.
Proof.
  induction fs as [|[p img] fs IH]; cbn [Os.listdir]; [intros []|].
  destruct (Os.strip_prefix (Py.join directory [EmptyString]) p) as [n|];
    [|assumption].
  destruct (negb (Os.has_sep n) && negb (String.eqb n EmptyString)) eqn:E;
    [|assumption].
  intros [<-|Hin]; [|auto].
  apply andb_prop in E. destruct E as [H1 H2].
  apply negb_true_iff in H1. apply negb_true_iff in H2. auto.
Qed.

(** The samples [create_wh] makes of a file carry the uid of its name. *)
Lemma samples_of_file_uid directory (fs : Files) file face :
  In face (samples_of_file directory fs file) ->
  names_uid (Face.uid face) file = true.
Proof.
  unfold samples_of_file, names_uid.
  destruct (is_jpg file); [|intros []].
  destruct (Os.imread _ fs) as [image|]; [|intros []].
  destruct (uid_of file) as [label|]; [|intros []].
  intros Hin. apply in_map_iff in Hin. destruct Hin as (bbox & <- & _).
  cbn [Face.uid sample_of andb]. apply Z.eqb_refl.
Qed.

(** When a deletion returns, the enumerated names are all the [jpg] names
    of the uid in the training directory. *)
Lemma enumerated_names_are_all uid (w : World) :
  NoDup (map fst (files w)) ->
  (forall i, 0 <= i < file_count uid (trn_listing w) ->
             Os.imread (sample_path (trn_dir w) uid i) (files w) <> None) ->
  forall file,
    In file (trn_listing w) -> names_uid uid file = true ->
    exists i, 0 <= i < file_count uid (trn_listing w) /\
              file = sample_name uid i.
Proof.
  intros Hnd Hthere file Hin Hfile.
  set (c := file_count uid (trn_listing w)) in *.
  set (names := map (sample_name uid) (Py.range c)).
  set (uid_files := filter (names_uid uid) (trn_listing w)).
  assert (Hnames : NoDup names).
  { apply NoDup_map_injective; [|apply range_NoDup].
    intros i j H. apply sample_name_inj in H. tauto. }
  assert (Hlen : (List.length uid_files <= List.length names)%nat).
  { unfold names. rewrite length_map, range_length. unfold c, file_count.
    fold uid_files. lia. }
  assert (Hincl : incl names uid_files).
  { intros name Hname. apply in_map_iff in Hname.
    destruct Hname as (i & <- & Hi). apply range_In in Hi.
    destruct (sample_name_reads_back uid i) as (Hjpg & Hu & _ & Hsep & Hne).
    apply filter_In. split.
    - apply listed_if_read; try assumption.
      rewrite <- sample_path_join. apply Hthere. assumption.
    - unfold names_uid. rewrite Hjpg, Hu, Z.eqb_refl. reflexivity. }
  pose proof (NoDup_length_incl Hnames Hlen Hincl) as Hall.
  assert (Hname : In file names).
  { apply Hall. apply filter_In. split; assumption. }
  apply in_map_iff in Hname. destruct Hname as (i & <- & Hi).
  apply range_In in Hi. exists i. split; [assumption|reflexivity].
Qed.

(** X10. When every path holds one file, a turn with the key [d] and a
    selected uid other than -1 that returns leaves no [jpg] file of that uid
    in the training directory, no sample of that uid in the training
    warehouse and no entry of that uid in the index. *)
Theorem delete_clears_the_uid :
  forall (image : Image) (face : option Image) (uid : Z) (w w' : World)
         (b : bool),
    uid <> -1 ->
    NoDup (map fst (files w)) ->
    Execution.command (Py.ord "d") image face uid w = (Ok b, w') ->
    file_count uid (trn_listing w') = 0 /\
    (forall sample, In sample (trn_wh w') -> Face.uid sample <> uid) /\
    (forall e, ~ In (e, uid) (knn w')).
Proof.
  intros image face uid w w' b Huid Hnd Hrun.
  destruct (delete_ok _ _ _ _ _ _ Huid Hrun)
    as (paths & w1 & trn & tst & Hpaths & Hloop & Htrn & _ & ->).
  destruct (remove_loop_ok _ _ _ Hloop) as (_ & Hthere & Hother & Hgone).
  cbn [files logged] in Hthere, Hother, Hgone.
  destruct (Hgone Hnd) as [_ Hnone]. clear Hgone.
  rewrite find_all_files_run in Hpaths.
  destruct (forallb _ (trn_listing w)); [|discriminate].
  inversion Hpaths as [Hp]. clear Hpaths.
  assert (Hin_paths : forall i, 0 <= i < file_count uid (trn_listing w) ->
                                In (sample_path (trn_dir w) uid i) paths).
  { intros i Hi. rewrite <- Hp. apply in_map. apply range_In. assumption. }
  assert (Hno_file : forall file,
             In file (Os.listdir (trn_dir w) (files w1)) ->
             names_uid uid file = false).
  { intros file Hin. destruct (names_uid uid file) eqn:Hfile; [|reflexivity].
    exfalso.
    pose proof (imread_listdir _ _ _ Hin) as Hread.
    destruct (listdir_valid _ _ _ Hin) as [Hsep Hne].
    destruct (in_dec string_dec (Py.join (trn_dir w) [file]) paths)
      as [Hp1|Hp1].
    - apply Hread. apply Hnone. assumption.
    - rewrite (Hother _ Hp1) in Hread.
      pose proof (listed_if_read _ _ _ Hsep Hne Hread) as Hold.
      destruct (enumerated_names_are_all uid w Hnd) with (file := file)
        as (i & Hi & ->); try assumption.
      + intros j Hj. apply Hthere. apply Hin_paths. assumption.
      + apply Hp1. rewrite <- sample_path_join. apply Hin_paths. assumption. }
  assert (Hno_sample : forall sample, In sample trn -> Face.uid sample <> uid).
  { intros sample Hin Hu. apply create_wh_ok in Htrn. subst trn.
    apply in_flat_map in Hin. destruct Hin as (file & Hfile & Hin).
    apply samples_of_file_uid in Hin. rewrite Hu in Hin.
    rewrite (Hno_file file Hfile) in Hin. discriminate. }
  split; [|split].
  - unfold file_count, trn_listing. cbn [files].
    change (trn_dir _) with (trn_dir w).
    assert (Hnil : filter (names_uid uid) (Os.listdir (trn_dir w) (files w1)) = []).
    { induction (Os.listdir (trn_dir w) (files w1)) as [|file l IH];
        [reflexivity|].
      cbn [filter]. rewrite (Hno_file file (or_introl eq_refl)).
      apply IH. intros f Hf. apply Hno_file. right. assumption. }
    rewrite Hnil. reflexivity.
  - cbn [trn_wh]. intros sample Hin.
    unfold Execution.encode_faces, Warehouse.get_faces in Hin.
    apply in_map_iff in Hin. destruct Hin as (f & <- & Hf).
    cbn [Face.uid Execution.set_embedding]. apply Hno_sample. assumption.
  - cbn [knn]. intros e Hin. unfold index_of in Hin.
    apply in_map_iff in Hin. destruct Hin as (f & Heq & Hf).
    inversion Heq. apply (Hno_sample f Hf). assumption.
Qed.

End DeletionCompleteness.

Section DeletionCompletenessExamples.
#[local] Existing Instance Sample.collaborators.

Lemma delete_clears_the_uid_witness :
  file_count 1
    (trn_listing (snd (Execution.command (Py.ord "d") Sample.known None 1
                         Sample.started))) = 0.
Proof.
  assert (Hrun :
            Execution.command (Py.ord "d") Sample.known None 1 Sample.started =
            (Ok false,
             snd (Execution.command (Py.ord "d") Sample.known None 1
                    Sample.started)))
    by (vm_compute; reflexivity).
  assert (Huid : 1 <> -1) by lia.
  assert (Hnd : NoDup (map fst (files Sample.started))).
  { vm_compute. repeat constructor; cbn [In]; intuition discriminate. }
  destruct (delete_clears_the_uid _ _ _ _ _ _ Huid Hnd Hrun) as (Hcount & _).
  exact Hcount.
Defined.

End DeletionCompletenessExamples.

(** ** Saving a frame, and the gallery over a whole session *)

Section Gallery.
Context {C : Collaborators}.

Lemma append_not_empty (a b : string) :
  String.eqb b EmptyString = false -> String.eqb (a ++ b) EmptyString = false.
Proof. destruct a; simpl; [tauto|reflexivity]. Qed.

Lemma ends_with_sep_has_sep d : Py.ends_with_sep d = true -> Os.has_sep d = true.
Proof.
  induction d as [|c d IH]; simpl; [discriminate|].
  destruct d as [|c' d'].
  - intros ->. reflexivity.
  - intros H. rewrite (IH H). apply orb_true_r.
Qed.

(** The prefix of the paths of a directory that is not the empty string
    holds a separator. *)
Lemma directory_prefix_has_sep d :
  String.eqb d EmptyString = false ->
  Os.has_sep (Py.join d [EmptyString]) = true.
Proof.
  intros Hd. unfold Py.join. cbn [fold_left]. unfold Py.join2.
  cbn [Py.starts_with_sep].
  destruct d as [|c d]; [discriminate|]. cbn [String.length Nat.eqb orb].
  destruct (Py.ends_with_sep (String c d)) eqn:E.
  - rewrite has_sep_append, (ends_with_sep_has_sep _ E). reflexivity.
  - rewrite has_sep_append. cbn. rewrite orb_true_r. reflexivity.
Qed.

Lemma dataset_dir_not_empty pkg split :
  Py.starts_with_sep split = false -> String.eqb split EmptyString = false ->
  String.eqb (Py.join pkg ["dataset"; split]) EmptyString = false.
Proof.
  intros Hs Hne. unfold Py.join. cbn [fold_left]. unfold Py.join2 at 1.
  rewrite Hs.
  destruct ((String.length _ =? 0)%nat || Py.ends_with_sep _).
  - apply append_not_empty. assumption.
  - apply append_not_empty. reflexivity.
Qed.

(** A path without separator is not a path of a dataset directory. *)
Lemma outside_dataset pkg split path :
  Py.starts_with_sep split = false -> String.eqb split EmptyString = false ->
  Os.has_sep path = false ->
  Os.strip_prefix (Py.join (Py.join pkg ["dataset"; split]) [EmptyString]) path
    = None /\
  forall file, Py.join (Py.join pkg ["dataset"; split]) [file] <> path.
Proof.
  intros Hs Hne Hpath.
  pose proof (directory_prefix_has_sep _ (dataset_dir_not_empty pkg split Hs Hne))
    as Hsep.
  split.
  - destruct (Os.strip_prefix _ path) as [name|] eqn:E; [|reflexivity].
    rewrite (strip_prefix_has_sep _ _ _ E Hsep) in Hpath. discriminate.
  - intros file Heq.
    destruct (Py.starts_with_sep file) eqn:Hf.
    + assert (Hfile : Py.join (Py.join pkg ["dataset"; split]) [file] = file).
      { unfold Py.join at 1. cbn [fold_left]. unfold Py.join2. rewrite Hf.
        reflexivity. }
      rewrite Hfile in Heq. subst file.
      destruct path as [|c path]; [discriminate|]. cbn in Hf, Hpath.
      rewrite Hf in Hpath. discriminate.
    + assert (Hfile : Py.join (Py.join pkg ["dataset"; split]) [file] =
                      (Py.join (Py.join pkg ["dataset"; split]) [EmptyString]
                       ++ file)%string).
      { unfold Py.join at 1 3. cbn [fold_left]. unfold Py.join2.
        rewrite Hf. cbn [Py.starts_with_sep].
        destruct ((String.length _ =? 0)%nat || Py.ends_with_sep _).
        - rewrite append_nil_r. reflexivity.
        - rewrite !append_assoc. reflexivity. }
      rewrite Hfile in Heq. rewrite <- Heq, has_sep_append, Hsep in Hpath.
      discriminate.
Qed.

(** What [create_wh] returns depends on the listing of the directory and on
    the files listed alone. *)
Lemma read_listing_ext directory listing warehouse (w1 w2 : World) :
  (forall file, In file listing ->
      Os.imread (Py.join directory [file]) (files w1) =
      Os.imread (Py.join directory [file]) (files w2)) ->
  fst (Execution.read_listing directory listing warehouse w1) =
  fst (Execution.read_listing directory listing warehouse w2).
Proof.
  revert warehouse.
  induction listing as [|file rest IH]; intros wh Hread;
    cbn [Execution.read_listing].
  - reflexivity.
  - assert (Hrest : forall f, In f rest ->
              Os.imread (Py.join directory [f]) (files w1) =
              Os.imread (Py.join directory [f]) (files w2)).
    { intros f Hf. apply Hread. right. assumption. }
    destruct (String.eqb _ "jpg"); [|apply IH; assumption].
    unfold bind at 1 3, get. cbv beta iota.
    rewrite (Hread file (or_introl eq_refl)).
    destruct (Os.imread _ (files w2)) as [image|]; [|reflexivity].
    unfold bind.
    rewrite (read_only_run _ w1 (add_faces_read_only _ _ _ _)).
    rewrite (read_only_run _ w2 (add_faces_read_only _ _ _ _)).
    rewrite (add_faces_any_world _ _ _ _ w1 w2).
    destruct (fst (Execution.add_faces _ image (detect_faces image) wh w2));
      [apply IH; assumption|reflexivity].
Qed.

Lemma create_wh_ext directory (w1 w2 : World) :
  Os.listdir directory (files w1) = Os.listdir directory (files w2) ->
  (forall file, In file (Os.listdir directory (files w2)) ->
      Os.imread (Py.join directory [file]) (files w1) =
      Os.imread (Py.join directory [file]) (files w2)) ->
  fst (Execution.create_wh directory w1) = fst (Execution.create_wh directory w2).
Proof.
  intros Hlist Hread. unfold Execution.create_wh, bind, get. cbv beta iota.
  rewrite Hlist. apply read_listing_ext. assumption.
Qed.

(** Writing a file without separator in its path changes nothing for the
    readers of a dataset directory. *)
Lemma create_wh_outside (w : World) split path image :
  Py.starts_with_sep split = false -> String.eqb split EmptyString = false ->
  Os.has_sep path = false ->
  Os.listdir (Py.join (pkg_dir w) ["dataset"; split])
             (Os.imwrite path image (files w)) =
    Os.listdir (Py.join (pkg_dir w) ["dataset"; split]) (files w) /\
  fst (Execution.create_wh (Py.join (pkg_dir w) ["dataset"; split])
         (with_files w (Os.imwrite path image (files w)))) =
    fst (Execution.create_wh (Py.join (pkg_dir w) ["dataset"; split]) w).
Proof.
  intros Hs Hne Hpath.
  destruct (outside_dataset (pkg_dir w) split path Hs Hne Hpath) as [Hout Hdiff].
  assert (Hlist : Os.listdir (Py.join (pkg_dir w) ["dataset"; split])
                    (Os.imwrite path image (files w)) =
                  Os.listdir (Py.join (pkg_dir w) ["dataset"; split]) (files w))
    by (apply listdir_imwrite_outside; assumption).
  split; [assumption|].
  apply create_wh_ext; cbn [files with_files]; [assumption|].
  intros file _. apply imread_imwrite_other. apply Hdiff.
Qed.

(** The key [s]. *)
Lemma save_run :
  forall (image : Image) (face : option Image) (uid : Z) (w : World),
    exists w',
      Execution.command (Py.ord "s") image face uid w = (Ok false, w') /\
      files w' = Os.imwrite "face.jpg" image (files w) /\
      trace w' = trace w ++ [Ev_imwrite "face.jpg"] /\
      pkg_dir w' = pkg_dir w /\
      trn_wh w' = trn_wh w /\ tst_wh w' = tst_wh w /\ knn w' = knn w /\
      Os.listdir (trn_dir w) (files w') = Os.listdir (trn_dir w) (files w) /\
      Os.listdir (tst_dir w) (files w') = Os.listdir (tst_dir w) (files w) /\
      fst (Execution.create_wh (trn_dir w) w') =
        fst (Execution.create_wh (trn_dir w) w) /\
      fst (Execution.create_wh (tst_dir w) w') =
        fst (Execution.create_wh (tst_dir w) w).
Proof.
  intros image face uid w.
  destruct (create_wh_outside w "train" "face.jpg" image eq_refl eq_refl eq_refl)
    as [Hl1 Hc1].
  destruct (create_wh_outside w "test" "face.jpg" image eq_refl eq_refl eq_refl)
    as [Hl2 Hc2].
  eexists. split; [reflexivity|].
  cbn [files trace pkg_dir trn_wh tst_wh knn logged].
  unfold trn_dir, tst_dir.
  repeat split; try assumption.
  - rewrite <- Hc1. apply create_wh_same_files. reflexivity.
  - rewrite <- Hc2. apply create_wh_same_files. reflexivity.
Qed.

(** X11. The key [s] writes the frame as annotated to [face.jpg], returns
    without stopping the loop and cannot raise; it leaves the warehouses and
    the index as they are, and the listings of both dataset directories and
    what [create_wh] builds from them are the same as before.  Paths are
    compared as written, so [face.jpg] is a file of the working directory
    and the working directory is none of the dataset directories. *)
Theorem save_leaves_the_gallery :
  forall (image : Image) (face : option Image) (uid : Z) (w : World),
    exists w',
      Execution.command (Py.ord "s") image face uid w = (Ok false, w') /\
      files w' = Os.imwrite "face.jpg" image (files w) /\
      trace w' = trace w ++ [Ev_imwrite "face.jpg"] /\
      pkg_dir w' = pkg_dir w /\
      trn_wh w' = trn_wh w /\ tst_wh w' = tst_wh w /\ knn w' = knn w /\
      Os.listdir (trn_dir w) (files w') = Os.listdir (trn_dir w) (files w) /\
      Os.listdir (tst_dir w) (files w') = Os.listdir (tst_dir w) (files w) /\
      fst (Execution.create_wh (trn_dir w) w') =
        fst (Execution.create_wh (trn_dir w) w) /\
      fst (Execution.create_wh (tst_dir w) w') =
        fst (Execution.create_wh (tst_dir w) w).
Proof. exact save_run. Qed.

(** The warehouses and the index are in step with the files. *)
Definition in_step (w : World) : Prop := reacquired w /\ refitted w.

Lemma in_step_transfer (w w' : World) :
  pkg_dir w' = pkg_dir w -> trn_wh w' = trn_wh w -> tst_wh w' = tst_wh w ->
  knn w' = knn w ->
  fst (Execution.create_wh (trn_dir w) w') =
    fst (Execution.create_wh (trn_dir w) w) ->
  fst (Execution.create_wh (tst_dir w) w') =
    fst (Execution.create_wh (tst_dir w) w) ->
  in_step w -> in_step w'.
Proof.
  intros Hpkg Htrn Htst Hknn Hc1 Hc2 [(trn & tst & H1 & H2 & H3 & H4) Hfit].
  split.
  - exists trn, tst. unfold trn_dir, tst_dir in *. rewrite Hpkg, Htrn, Htst.
    rewrite Hc1, Hc2. auto.
  - unfold refitted in *. rewrite Htrn, Hknn. assumption.
Qed.

Lemma in_step_logged (w : World) events : in_step w -> in_step (logged w events).
Proof.
  apply in_step_transfer; try reflexivity;
    apply create_wh_same_files; reflexivity.
Qed.

Lemma in_step_built (w : World) fs trn tst events :
  fst (Execution.create_wh (trn_dir w) (with_files w fs)) = Ok trn ->
  fst (Execution.create_wh (tst_dir w) (with_files w fs)) = Ok tst ->
  in_step (mkWorld _ (pkg_dir w) fs (Execution.encode_faces trn)
                   (Execution.encode_faces tst) (index_of trn) events).
Proof.
  intros Htrn Htst. split.
  - exists trn, tst. cbn [trn_wh tst_wh]. split; [|split; [|split; reflexivity]].
    + rewrite <- Htrn. apply create_wh_same_files. reflexivity.
    + rewrite <- Htst. apply create_wh_same_files. reflexivity.
  - unfold refitted. cbn [trn_wh knn]. apply pairs_encode_faces.
Qed.

(** The reaction to a key keeps the warehouses and the index in step with
    the files, whenever it returns. *)
Lemma command_keeps_in_step k image face uid (w w' : World) (b : bool) :
  Execution.command k image face uid w = (Ok b, w') ->
  in_step w -> in_step w'.
Proof.
  intros Hrun Hinv.
  destruct (Z.eq_dec k 27) as [->|H27].
  { rewrite command_escape in Hrun. inversion Hrun. subst.
    apply in_step_logged. assumption. }
  destruct (Z.eq_dec k (Py.ord "s")) as [->|Hs].
  { destruct (save_run image face uid w)
      as (w1 & Hsave & _ & _ & Hpkg & Htrn & Htst & Hknn & _ & _ & Hc1 & Hc2).
    rewrite Hsave in Hrun. inversion Hrun. subst.
    apply (in_step_transfer w); assumption. }
  destruct (Z.eq_dec k (Py.ord "a")) as [->|Ha].
  { destruct face as [f|].
    - destruct (enroll_ok _ _ _ _ _ _ Hrun)
        as (path & trn & tst & _ & Htrn & Htst & ->).
      apply in_step_built; assumption.
    - assert (Hnone : Execution.command (Py.ord "a") image None uid w =
                      (Ok false, w)) by reflexivity.
      rewrite Hnone in Hrun. inversion Hrun. subst. assumption. }
  destruct (Z.eq_dec k (Py.ord "d")) as [->|Hd].
  { destruct (Z.eq_dec uid (-1)) as [->|Huid].
    - assert (Hnone : Execution.command (Py.ord "d") image face (-1) w =
                      (Ok false, w)) by reflexivity.
      rewrite Hnone in Hrun. inversion Hrun. subst. assumption.
    - destruct (delete_ok _ _ _ _ _ _ Huid Hrun)
        as (paths & w1 & trn & tst & _ & Hloop & Htrn & Htst & ->).
      destruct (remove_loop_frame paths (logged w [Ev_find_all_files]))
        as (Hpkg & _).
      rewrite Hloop in Hpkg. cbn [snd pkg_dir logged] in Hpkg.
      apply in_step_built.
      + rewrite <- Htrn. apply create_wh_same_files. reflexivity.
      + rewrite <- Htst. apply create_wh_same_files. reflexivity. }
  assert (Hother : Execution.command k image face uid w = (Ok false, w)).
  { unfold Execution.command.
    apply Z.eqb_neq in H27, Hs, Ha, Hd. rewrite H27, Hs, Ha, Hd. reflexivity. }
  rewrite Hother in Hrun. inversion Hrun. subst. assumption.
Qed.

Lemma iteration_keeps_in_step (i : Execution.Input) (w w' : World) (b : bool) :
  Execution.iteration i w = (Ok b, w') -> in_step w -> in_step w'.
Proof.
  intros Hrun Hinv. destruct (usable i) eqn:Husable.
  - destruct (iteration_usable i w Husable)
      as (annotated & face & uid & events & _ & Hcmd).
    rewrite Hcmd in Hrun.
    apply (command_keeps_in_step _ _ _ _ _ _ _ Hrun).
    apply in_step_logged. assumption.
  - rewrite (iteration_unusable i w Husable) in Hrun. inversion Hrun. subst.
    apply in_step_logged. assumption.
Qed.

(** X12. If the warehouses are what [create_wh] builds from the dataset
    directories, with every sample encoded, and the index is fitted on the
    training warehouse, then the same holds after any run of the session
    loop that has not raised, whatever the frames and keys were. *)
Theorem session_keeps_the_gallery_in_step :
  forall (inputs : list Execution.Input) (w w' : World) (b : bool),
    reacquired w -> refitted w ->
    Execution.test inputs w = (Ok b, w') ->
    reacquired w' /\ refitted w'.
Proof.
  intros inputs w w' b Hacq Hfit Hrun.
  assert (Hinv : in_step w) by (split; assumption). clear Hacq Hfit.
  revert w Hinv Hrun. induction inputs as [|i rest IH]; intros w Hinv Hrun;
    cbn [Execution.test] in Hrun.
  - inversion Hrun. subst. exact Hinv.
  - apply bind_inv in Hrun.
    destruct Hrun as [(stop & w1 & Hturn & Hrun)|(e & _ & He)];
      [|discriminate He].
    pose proof (iteration_keeps_in_step _ _ _ _ Hturn Hinv) as Hinv1.
    destruct stop.
    + inversion Hrun. subst. exact Hinv1.
    + apply (IH _ Hinv1 Hrun).
Qed.


End Gallery.

Section GalleryExamples.
#[local] Existing Instance Sample.collaborators.

Lemma session_keeps_the_gallery_in_step_witness :
  refitted (snd (Execution.test Sample.session Sample.started)) /\
  map snd (knn (snd (Execution.test Sample.session Sample.started))) =
    [0; 1; 1; 1; 3; 2].
Proof.
  assert (Hrun : Execution.test Sample.session Sample.started =
                 (Ok true, snd (Execution.test Sample.session Sample.started)))
    by (vm_compute; reflexivity).
  assert (Hacq : reacquired Sample.started).
  { eexists. eexists. split; [vm_compute; reflexivity|].
    split; [vm_compute; reflexivity|]. split; vm_compute; reflexivity. }
  assert (Hfit : refitted Sample.started) by (vm_compute; reflexivity).
  destruct (session_keeps_the_gallery_in_step _ _ _ _ Hacq Hfit Hrun)
    as [_ Hfit'].
  split; [exact Hfit'|vm_compute; reflexivity].
Defined.

End GalleryExamples.


(** ** Turns that only look, and [acquire_data] on its own *)

Section Looking.
Context {C : Collaborators}.

(** The calls of the loop over the bounding boxes for one box. *)
Definition box_calls : list Event :=
  [Ev_crop; Ev_process; Ev_encode; Ev_knn_classify; Ev_visualize].

Lemma per_face_calls bboxes image face uid (w : World) :
  exists annotated face' uid',
    Execution.per_face bboxes image face uid w =
      (Ok (annotated, face', uid'),
       logged w (flat_map (fun _ => box_calls) bboxes)).
Proof.
  revert image face uid w.
  induction bboxes as [|bbox rest IH]; intros image face uid w.
  - exists image, face, uid. cbn [flat_map]. rewrite logged_nil. reflexivity.
  - rewrite per_face_cons.
    match goal with |- context [Execution.per_face rest ?i ?f ?u ?w1] =>
      destruct (IH i f u w1) as (annotated & face' & uid' & Hrun)
    end.
    exists annotated, face', uid'. rewrite Hrun, logged_logged. reflexivity.
Qed.

(** X14. A turn with a usable frame and a key that is none of 27, [s], [a]
    and [d], among them the -1 of no key pressed, returns without stopping
    the loop and leaves files, warehouses and index as they are: it calls
    [get_frame] and [detect_faces], makes five calls for each box found, and
    calls [imshow] and [waitKey]. *)
Theorem turn_with_another_key_only_looks :
  forall (i : Execution.Input) (image : Image) (w : World),
    Execution.frame i = Some image ->
    usable i = true ->
    Execution.key i <> 27 -> Execution.key i <> Py.ord "s" ->
    Execution.key i <> Py.ord "a" -> Execution.key i <> Py.ord "d" ->
    Execution.iteration i w =
      (Ok false,
       logged w ([Ev_get_frame; Ev_detect_faces] ++
                 flat_map (fun _ => box_calls) (detect_faces image) ++
                 [Ev_imshow; Ev_waitKey])).
Proof.
  intros i image w Hframe Husable H27 Hs Ha Hd.
  unfold usable in Husable. rewrite Hframe in Husable.
  apply andb_prop in Husable. destruct Husable as [H0 H1].
  unfold Execution.iteration.
  rewrite (bind_ok _ _ _ _ _ (emit_run _ w)), Hframe, H0, H1. cbn [negb orb].
  rewrite (bind_ok _ _ _ _ _ (emit_run _ _)).
  match goal with |- context [Execution.per_face ?l ?im ?f ?u] =>
    destruct (per_face_calls l im f u
                (logged (logged w [Ev_get_frame]) [Ev_detect_faces]))
      as (annotated & face & uid & Hrun)
  end.
  rewrite (bind_ok _ _ _ _ _ Hrun).
  rewrite (bind_ok _ _ _ _ _ (emit_run _ _)).
  rewrite (bind_ok _ _ _ _ _ (emit_run _ _)).
  cbn [fst snd]. unfold Execution.command.
  apply Z.eqb_neq in H27, Hs, Ha, Hd. rewrite H27, Hs, Ha, Hd.
  unfold ret. rewrite !logged_logged. rewrite <- ?app_assoc. reflexivity.
Qed.


End Looking.

Section LookingExamples.
#[local] Existing Instance Sample.collaborators.

Lemma turn_with_another_key_witness :
  Execution.iteration (Execution.mkInput (Some Sample.known) (-1)) Sample.started =
    (Ok false,
     logged Sample.started
       [Ev_get_frame; Ev_detect_faces; Ev_crop; Ev_process; Ev_encode;
        Ev_knn_classify; Ev_visualize; Ev_imshow; Ev_waitKey]).
Proof.
  exact (turn_with_another_key_only_looks
           (Execution.mkInput (Some Sample.known) (-1)) Sample.known
           Sample.started eq_refl eq_refl
           ltac:(discriminate) ltac:(discriminate) ltac:(discriminate)
           ltac:(discriminate)).
Defined.

End LookingExamples.
